(** * Community Energy Toolkit: energy estimator and rolling LSTM forecast

    A shallow embedding of the computational core of the Streamlit pages
    [pages/1_PDF_Analyzer.py] (selection of the extracted values,
    coordinates, validation), [pages/2_Geographic_Calculator.py] (form
    values, physical power formulas, batch analysis, sensitivity curves)
    and [pages/3_Time_Series_Predictor.py] (climate scenario generator,
    rolling-window forecast loop, export), followed by the properties
    proved about them.

    Numeric convention.  Python [float] and [int] quantities that take part
    in real-valued arithmetic are embedded as exact rationals [Q]; the
    decimal literals of the source ([9.81], [4.18], [0.85], ...) are the
    rationals they denote, and Python's [==] on numbers is [Qeq] ([==]).
    Rounding, overflow, infinities and NaN of IEEE binary64 are therefore
    outside the model; the module [Binary64] re-runs the two power
    formulas in IEEE binary64 on the documented scenarios as a cross-check.
    Python [int] values used as indices, month numbers
    and counters are [Z], with [//] as [Z.div] and [%] as [Z.modulo]
    (both floor-based, as in Python, for the positive divisor 12).

    Widgets, charts and the layout are not modelled: the functions below
    take the widget values as arguments and return the values the page
    stores in [st.session_state]. *)

From Stdlib Require Import QArith Qabs Qround ZArith Lia Lqa DecimalString PrimFloat.
From stdpp Require Import base option list gmap strings.

Set Default Proof Using "Type".

(** ** Python helpers *)

(** [a > b] and [a < b] on numbers, as booleans. *)
Definition Qgtb (a b : Q) : bool := negb (Qle_bool a b).
Definition Qltb (a b : Q) : bool := negb (Qle_bool b a).
(** [a >= b]. *)
Definition Qgeb (a b : Q) : bool := Qle_bool b a.

(** [int(x)] on a float: truncation towards zero. *)
Definition int (x : Q) : Z := Z.quot (Qnum x) (Zpos (Qden x)).

(** [str(n)] / [f"{n}"] for an [int]. *)
Definition str (n : Z) : string := NilZero.string_of_int (Z.to_int n).

(** [range(n)]. *)
Definition range (n : Z) : list Z := Z.of_nat <$> seq 0 (Z.to_nat n).

(** [range(start, stop, -1)]. *)
Definition range_down (start stop : Z) : list Z :=
  (λ k : nat, (start - Z.of_nat k)%Z) <$> seq 0 (Z.to_nat (start - stop)).

(** [l[i]] on a Python list: negative indices count from the end, an index
    out of range raises [IndexError] ([None]). *)
Definition py_index {A} (l : list A) (i : Z) : option A :=
  if (i <? 0)%Z then
    if (- Z.of_nat (length l) <=? i)%Z then l !! Z.to_nat (Z.of_nat (length l) + i)
    else None
  else l !! Z.to_nat i.

(** [for i in idx: s = body(s, i)], where the body may raise. *)
Fixpoint for_each {S : Type} (body : S → Z → option S) (idx : list Z) (s : S)
  : option S :=
  match idx with
  | [] => Some s
  | i :: idx' => s' ← body s i; for_each body idx' s'
  end.

(** [sum(l)]: starts from [0] and adds from left to right. *)
Definition py_sum (l : list Q) : Q := fold_left Qplus l 0%Q.

(** ** pages/1_PDF_Analyzer.py: viability checks on the extracted data *)

Module PDFAnalyzer.

(** [has_waterfall = waterfall_flow > 0 and waterfall_height > 0]. *)
Definition has_waterfall (waterfall_flow waterfall_height : Q) : bool :=
  Qgtb waterfall_flow 0 && Qgtb waterfall_height 0.

(** [has_geothermal = extracted_data.get('geo_temp', 0) >= 50]. *)
Definition has_geothermal (geo_temp : Q) : bool := Qgeb geo_temp 50.

(** The final validation before "Send Data to Geographic Calculator":
    [True] when the "No viable energy source" error is raised. *)
Definition no_viable_source (waterfall_flow waterfall_height geo_temp : Q) : bool :=
  negb (has_waterfall waterfall_flow waterfall_height) && negb (has_geothermal geo_temp).

End PDFAnalyzer.

(** ** pages/2_Geographic_Calculator.py: the energy estimator *)

Module GeographicCalculator.

Local Open Scope string_scope.
Local Open Scope list_scope.
Local Open Scope Q_scope.

(** Constants *)
Definition rho : Q := 1000.
Definition g : Q := 9.81.
Definition specific_heat : Q := 4.18.
Definition surface_temp : Q := 25.

(** The values computed by the "Calculate Energy Potential" button: the
    numeric entries it stores in [st.session_state.geo_data], together
    with the per-source intermediates it displays.  [thermal_power_kW]
    is bound only in the viable geothermal branch. *)
Record geo_data := {
  P_waterfall_MW : Q;
  E_waterfall_year_MWh : Q;
  households_waterfall : Z;
  has_waterfall : bool;
  thermal_power_kW : option Q;
  P_geo_MW : Q;
  E_geo_year_MWh : Q;
  households_geo : Z;
  pipe_material : string;
  relative_cost : Q;
  has_geothermal : bool;
  E_waste_recovered_MWh : Q;
  households_waste : Z;
  P_total_MW : Q;
  E_total_year_MWh : Q;
  households_total : Z
}.

(** WATERFALL CALCULATIONS: power, annual energy, households, flag. *)
Definition waterfall_calculations
    (waterfall_height waterfall_flow turbine_efficiency : Q) : Q * Q * Z * bool :=
  if Qgtb waterfall_height 0 && Qgtb waterfall_flow 0 then
    let P_waterfall_watts := rho * g * waterfall_flow * waterfall_height * turbine_efficiency in
    let P_waterfall_MW := P_waterfall_watts / 1_000_000 in
    let E_waterfall_year_MWh := P_waterfall_MW * 24 * 365 in
    let households_waterfall := int (E_waterfall_year_MWh * 1000 / 7.2) in
    (P_waterfall_MW, E_waterfall_year_MWh, households_waterfall, true)
  else
    (0, 0, 0%Z, false).

(** GEOTHERMAL CALCULATIONS: thermal power (bound only in the viable
    branch), power, annual energy, households, pipe material, relative
    cost, flag. *)
Definition geothermal_calculations
    (geo_temp depth geo_efficiency capacity_factor : Q)
    : option Q * Q * Q * Z * string * Q * bool :=
  if Qgtb geo_temp 50 && Qgtb depth 0 then
    let flow_rate_geo := 50.0 in
    let temp_diff := geo_temp - surface_temp in
    let thermal_power_kW := flow_rate_geo * specific_heat * temp_diff in
    let P_geo_MW := (thermal_power_kW * geo_efficiency) / 1000 in
    let E_geo_year_MWh := P_geo_MW * 24 * 365 * capacity_factor in
    let households_geo := int (E_geo_year_MWh * 1000 / 7.2) in
    let '(pipe_material, relative_cost) :=
      if Qltb geo_temp 300 then ("Stainless Steel / Incoloy", 1.0)
      else if Qltb geo_temp 600 then ("Inconel alloys / Nickel-chromium", 2.5)
      else ("Ceramic composites / SiC / Titanium alloys", 5.0) in
    (Some thermal_power_kW, P_geo_MW, E_geo_year_MWh, households_geo,
     pipe_material, relative_cost, true)
  else
    (None, 0, 0, 0%Z, "N/A", 0, false).

(** The whole "Calculate Energy Potential" handler. *)
Definition calculate_energy_potential
    (waterfall_height waterfall_flow geo_temp depth
     turbine_efficiency geo_efficiency capacity_factor : Q) : geo_data :=
  let '(P_waterfall_MW, E_waterfall_year_MWh, households_waterfall, has_waterfall) :=
    waterfall_calculations waterfall_height waterfall_flow turbine_efficiency in
  let '(thermal_power_kW, P_geo_MW, E_geo_year_MWh, households_geo,
        pipe_material, relative_cost, has_geothermal) :=
    geothermal_calculations geo_temp depth geo_efficiency capacity_factor in
  (* WASTE ENERGY RECOVERY *)
  let E_waste_recovered_MWh := (E_waterfall_year_MWh + E_geo_year_MWh) * 0.05 in
  let households_waste := int (E_waste_recovered_MWh * 1000 / 7.2) in
  (* TOTALS *)
  let P_total_MW := P_waterfall_MW + P_geo_MW in
  let E_total_year_MWh := E_waterfall_year_MWh + E_geo_year_MWh + E_waste_recovered_MWh in
  let households_total := int (E_total_year_MWh * 1000 / 7.2) in
  {| P_waterfall_MW := P_waterfall_MW;
     E_waterfall_year_MWh := E_waterfall_year_MWh;
     households_waterfall := households_waterfall;
     has_waterfall := has_waterfall;
     thermal_power_kW := thermal_power_kW;
     P_geo_MW := P_geo_MW;
     E_geo_year_MWh := E_geo_year_MWh;
     households_geo := households_geo;
     pipe_material := pipe_material;
     relative_cost := relative_cost;
     has_geothermal := has_geothermal;
     E_waste_recovered_MWh := E_waste_recovered_MWh;
     households_waste := households_waste;
     P_total_MW := P_total_MW;
     E_total_year_MWh := E_total_year_MWh;
     households_total := households_total |}.

(** One row of "Process All Locations" (batch CSV): the unrounded
    [p_waterfall], [e_waterfall], [p_geo], [e_geo], [e_waste],
    [total_annual], [households] and the ['Pipe_Material'] entry.
    The column [depth_km] is read but not used. *)
Record batch_row := {
  p_waterfall : Q;
  e_waterfall : Q;
  p_geo : Q;
  e_geo : Q;
  e_waste : Q;
  total_annual : Q;
  households : Z;
  Pipe_Material : string
}.

Definition process_location (h q temp depth : Q) : batch_row :=
  let '(p_waterfall, e_waterfall) :=
    if Qgtb h 0 && Qgtb q 0 then
      let p_waterfall := (1000 * 9.81 * q * h * 0.9) / 1_000_000 in
      (p_waterfall, p_waterfall * 24 * 365)
    else (0, 0) in
  let '(p_geo, e_geo) :=
    if Qgtb temp 50 then
      let p_geo := (50 * 4.18 * (temp - 25) * 0.15) / 1000 in
      (p_geo, p_geo * 24 * 365 * 0.85)
    else (0, 0) in
  let e_waste := (e_waterfall + e_geo) * 0.05 in
  let total_annual := e_waterfall + e_geo + e_waste in
  let households := int (total_annual * 1000 / 7.2) in
  let material :=
    if Qltb temp 300 then "Stainless Steel"
    else if Qltb temp 600 then "Inconel alloys"
    else "Ceramic composites" in
  {| p_waterfall := p_waterfall; e_waterfall := e_waterfall;
     p_geo := p_geo; e_geo := e_geo; e_waste := e_waste;
     total_annual := total_annual; households := households;
     Pipe_Material := if Qgtb temp 50 then material else "N/A" |}.

End GeographicCalculator.

(** ** The power formulas in IEEE binary64

    The same two branches of "Calculate Energy Potential", computed with
    the kernel's binary64 floats as CPython computes them ([int] operands
    are converted to [float] by the first mixed operation). *)

Module Binary64.

Local Open Scope float_scope.
#[local] Set Warnings "-inexact-float".

(** WATERFALL CALCULATIONS: power and annual energy. *)
Definition waterfall_calculations
    (waterfall_height waterfall_flow turbine_efficiency : float) : float * float :=
  if (0 <? waterfall_height) && (0 <? waterfall_flow) then
    let P_waterfall_watts := 1000 * 9.81 * waterfall_flow * waterfall_height * turbine_efficiency in
    let P_waterfall_MW := P_waterfall_watts / 1000000 in
    let E_waterfall_year_MWh := P_waterfall_MW * 24 * 365 in
    (P_waterfall_MW, E_waterfall_year_MWh)
  else
    (0, 0).

(** GEOTHERMAL CALCULATIONS: thermal power, power and annual energy. *)
Definition geothermal_calculations
    (geo_temp depth geo_efficiency capacity_factor : float)
    : option float * float * float :=
  if (50 <? geo_temp) && (0 <? depth) then
    let flow_rate_geo := 50.0 in
    let temp_diff := geo_temp - 25 in
    let thermal_power_kW := flow_rate_geo * 4.18 * temp_diff in
    let P_geo_MW := (thermal_power_kW * geo_efficiency) / 1000 in
    let E_geo_year_MWh := P_geo_MW * 24 * 365 * capacity_factor in
    (Some thermal_power_kW, P_geo_MW, E_geo_year_MWh)
  else
    (None, 0, 0).

(** The documented scenarios. *)
Definition scenario_waterfall : float * float := waterfall_calculations 50 10 0.9.
Definition scenario_geothermal : option float * float * float :=
  geothermal_calculations 200 3 0.15 0.85.
Definition boundary_geothermal : option float * float * float :=
  geothermal_calculations 50 3 0.15 0.85.

(** [|x - y| <= eps]. *)
Definition within (eps x y : float) : bool := abs (x - y) <=? eps.

End Binary64.

(** ** pages/3_Time_Series_Predictor.py: scenario generator and forecast *)

Module TimeSeriesPredictor.

Local Open Scope string_scope.
Local Open Scope list_scope.
Local Open Scope Q_scope.

(** The result of [load_lstm_model()]: the Keras model and the two pickled
    scikit-learn scalers.  They are opaque artifacts; a scaler's
    [transform] acts on each row (month) of its input, the model maps a
    [(1, 12, 2)] tensor to one scalar, and [scaler_y.inverse_transform]
    maps that scalar back to MWh. *)
Record lstm := {
  scaler_X_row : Q * Q → Q * Q;
  model_predict : list (Q * Q) → Q;
  scaler_y_inverse_transform : Q → Q
}.

(** [scaler_X.transform(X)]. *)
Definition scaler_X_transform (M : lstm) (X : list (Q * Q)) : list (Q * Q) :=
  scaler_X_row M <$> X.

(** [X.reshape(1, 12, 2)]: raises unless [X] holds 12 rows of 2 values. *)
Definition reshape_1_12_2 (X : list (Q * Q)) : option (list (Q * Q)) :=
  if decide (length X = 12%nat) then Some X else None.

(** NumPy's global legacy generator: [np.random.seed(n)] replaces the
    hidden state by one determined by [n]; [np.random.normal(loc, scale)]
    returns a draw and advances the state. *)
Record numpy_random := {
  rng_state : Type;
  random_seed : Z → rng_state;
  random_normal : Q → Q → rng_state → Q * rng_state
}.

Definition month_map : gmap string Z :=
  list_to_map [
    ("January", 1%Z); ("February", 2%Z); ("March", 3%Z); ("April", 4%Z);
    ("May", 5%Z); ("June", 6%Z); ("July", 7%Z); ("August", 8%Z);
    ("September", 9%Z); ("October", 10%Z); ("November", 11%Z); ("December", 12%Z)
  ].

(** Typical Bangladesh climate patterns by month: (temperature, rainfall). *)
Definition bangladesh_climate : gmap Z (Z * Z) :=
  list_to_map [
    (1, (19, 20)); (2, (22, 25)); (3, (26, 50)); (4, (28, 100));
    (5, (28, 250)); (6, (28, 350)); (7, (28, 400)); (8, (28, 350));
    (9, (27, 300)); (10, (26, 150)); (11, (23, 30)); (12, (20, 15))
  ]%Z.

Definition climate_adjustments : gmap string (Q * Q) :=
  list_to_map [
    ("Normal", (1.0, 1.0));
    ("Wetter (More Monsoon)", (1.0, 1.3));
    ("Drier (Less Rain)", (1.0, 0.7));
    ("Hotter", (1.1, 0.9))
  ].

Definition month_names : list string :=
  ["Jan"; "Feb"; "Mar"; "Apr"; "May"; "Jun";
   "Jul"; "Aug"; "Sep"; "Oct"; "Nov"; "Dec"].

(** The three lists filled by the climate loop. *)
Record climate := {
  months : list string;
  temperatures : list Q;
  rainfalls : list Q
}.

(** [month_num], [year_offset] and [month_label] of step [i]. *)
Definition month_num (start_month_num i : Z) : Z :=
  ((start_month_num + i - 1) `mod` 12 + 1)%Z.

Definition year_offset (start_month_num i : Z) : Z :=
  ((start_month_num + i - 1) `div` 12)%Z.

Definition month_label (start_month_num i : Z) : option string :=
  name ← py_index month_names (month_num start_month_num i - 1);
  Some (name +:+ " Y" +:+ str (year_offset start_month_num i + 1)).

(** Body of "Generate climate data for forecast period".  The state is
    the three lists and NumPy's hidden generator state. *)
Definition climate_step (R : numpy_random) (start_month_num : Z)
    (temp_mult rain_mult : Q)
    (s : climate * rng_state R) (i : Z) : option (climate * rng_state R) :=
  let '(c, _) := s in
  month_label ← month_label start_month_num i;
  '(base_temp, base_rain) ← bangladesh_climate !! month_num start_month_num i;
  let r := random_seed R (42 + i) in
  let '(n1, r) := random_normal R 1.0 0.05 r in
  let temp := inject_Z base_temp * temp_mult * n1 in
  let '(n2, r) := random_normal R 1.0 0.1 r in
  let rain := inject_Z base_rain * rain_mult * n2 in
  Some ({| months := months c ++ [month_label];
           temperatures := temperatures c ++ [temp];
           rainfalls := rainfalls c ++ [rain] |}, r).

(** Body of "Get last 12 months of climate data for LSTM". *)
Definition historical_step (start_month_num : Z)
    (historical_months : list (Q * Q)) (i : Z) : option (list (Q * Q)) :=
  let month_num := ((start_month_num - i) `mod` 12)%Z in
  let month_num := if (month_num =? 0)%Z then 12%Z else month_num in
  '(base_temp, base_rain) ← bangladesh_climate !! month_num;
  Some (historical_months ++ [(inject_Z base_temp, inject_Z base_rain)]).

(** State of the month-by-month prediction loop. *)
Record forecast_state := {
  current_sequence : list (Q * Q);
  predictions_mwh : list Q;
  confidence_lower : list Q;
  confidence_upper : list Q
}.

(** [prediction_mwh]: normalise, reshape, predict, denormalise. *)
Definition prediction_mwh (M : lstm) (current_sequence : list (Q * Q)) : option Q :=
  let sequence_scaled := scaler_X_transform M current_sequence in
  sequence_scaled ← reshape_1_12_2 sequence_scaled;
  let prediction_scaled := model_predict M sequence_scaled in
  Some (scaler_y_inverse_transform M prediction_scaled).

(** [scale_factor]: the user's system capacity against the reference. *)
Definition scale_factor (base_power_mw : Q) : Q :=
  let user_monthly_mwh := base_power_mw * 730 in
  user_monthly_mwh / 3500.

(** Body of "Make predictions month by month". *)
Definition forecast_step (M : lstm) (base_power_mw : Q)
    (temperatures rainfalls : list Q)
    (s : forecast_state) (i : Z) : option forecast_state :=
  prediction_mwh ← prediction_mwh M (current_sequence s);
  let scaled_prediction := prediction_mwh * scale_factor base_power_mw in
  t ← py_index temperatures i;
  r ← py_index rainfalls i;
  let new_point := (t, r) in
  Some {| current_sequence := tail (current_sequence s) ++ [new_point];
          predictions_mwh := predictions_mwh s ++ [scaled_prediction];
          confidence_lower := confidence_lower s ++ [scaled_prediction * 0.85];
          confidence_upper := confidence_upper s ++ [scaled_prediction * 1.15] |}.

(** The dictionary stored in [st.session_state.predictions]. *)
Record predictions := {
  p_months : list string;
  p_temperatures : list Q;
  p_rainfalls : list Q;
  waterfall_mw_series : list Q;
  geo_mw_series : list Q;
  total_mw : list Q;
  waterfall_mwh : list Q;
  geo_mwh : list Q;
  total_mwh : list Q;
  p_confidence_lower : list Q;
  p_confidence_upper : list Q;
  total_annual_mwh : Q;
  p_climate_scenario : string
}.

Definition hours_per_month : Q := 730.

(** [waterfall_ratio] and [geo_ratio] ("Breakdown by source"). *)
Definition waterfall_ratio (waterfall_mw base_power_mw : Q) : Q :=
  if Qgtb base_power_mw 0 then waterfall_mw / base_power_mw else 0.5.

Definition geo_ratio (geo_mw base_power_mw : Q) : Q :=
  if Qgtb base_power_mw 0 then geo_mw / base_power_mw else 0.5.

(** The climate scenario generator: both climate loops. *)
Definition generate_climate (R : numpy_random) (r0 : rng_state R)
    (forecast_months start_month_num : Z) (temp_mult rain_mult : Q)
    : option (climate * rng_state R) :=
  for_each (climate_step R start_month_num temp_mult rain_mult)
    (range forecast_months)
    ({| months := []; temperatures := []; rainfalls := [] |}, r0).

Definition historical_months (start_month_num : Z) : option (list (Q * Q)) :=
  for_each (historical_step start_month_num) (range_down 12 0) [].

(** The rolling forecast loop over the indices [idx], from the window
    [historical_months]. *)
Definition forecast_loop (M : lstm) (base_power_mw : Q)
    (temperatures rainfalls : list Q) (historical_months : list (Q * Q))
    (idx : list Z) : option forecast_state :=
  for_each (forecast_step M base_power_mw temperatures rainfalls) idx
    {| current_sequence := historical_months; predictions_mwh := [];
       confidence_lower := []; confidence_upper := [] |}.

(** "Calculate power from energy", "Breakdown by source" and
    "Store predictions": the dictionary built once both loops are done. *)
Definition store_predictions (c : climate) (s : forecast_state)
    (base_power_mw waterfall_mw geo_mw : Q) (climate_scenario : string)
    : predictions :=
  let predictions_mw := (λ e, e / hours_per_month) <$> predictions_mwh s in
  let waterfall_ratio := waterfall_ratio waterfall_mw base_power_mw in
  let geo_ratio := geo_ratio geo_mw base_power_mw in
  let waterfall_predictions := (λ p, p * waterfall_ratio) <$> predictions_mwh s in
  let geo_predictions := (λ p, p * geo_ratio) <$> predictions_mwh s in
  {| p_months := months c;
     p_temperatures := temperatures c;
     p_rainfalls := rainfalls c;
     waterfall_mw_series := (λ w, w / hours_per_month) <$> waterfall_predictions;
     geo_mw_series := (λ g, g / hours_per_month) <$> geo_predictions;
     total_mw := predictions_mw;
     waterfall_mwh := waterfall_predictions;
     geo_mwh := geo_predictions;
     total_mwh := predictions_mwh s;
     p_confidence_lower := confidence_lower s;
     p_confidence_upper := confidence_upper s;
     total_annual_mwh := py_sum (predictions_mwh s);
     p_climate_scenario := climate_scenario |}.

(** The "Generate LSTM Forecast" handler.  [base_power_mw], [waterfall_mw]
    and [geo_mw] are read from [st.session_state.geo_data]; [r0] is the
    state NumPy's generator happens to be in when the button is pressed.
    A raised exception ([KeyError], [IndexError], a failed reshape) is
    [None]. *)
Definition generate_lstm_forecast (M : lstm) (R : numpy_random) (r0 : rng_state R)
    (base_power_mw waterfall_mw geo_mw : Q)
    (forecast_months : Z) (start_month climate_scenario : string)
    : option (predictions * rng_state R) :=
  start_month_num ← month_map !! start_month;
  '(temp_mult, rain_mult) ← climate_adjustments !! climate_scenario;
  '(c, r) ← generate_climate R r0 forecast_months start_month_num temp_mult rain_mult;
  historical_months ← historical_months start_month_num;
  s ← forecast_loop M base_power_mw (temperatures c) (rainfalls c)
        historical_months (range forecast_months);
  Some (store_predictions c s base_power_mw waterfall_mw geo_mw climate_scenario, r).

(** *** Per-step values of the loops, in closed form

    The value each loop iteration computes, as a function of its index;
    the lemmas below show that the loops produce exactly these. *)

(** [bangladesh_climate[m]] for a month number in [1..12]. *)
Definition base_climate (m : Z) : Z * Z :=
  default (0, 0)%Z (bangladesh_climate !! m).

(** [month_label] of step [i]. *)
Definition label_at (start_month_num i : Z) : string :=
  default "" (month_names !! Z.to_nat (month_num start_month_num i - 1))
    +:+ " Y" +:+ str (year_offset start_month_num i + 1).

(** [temp] and [rain] of step [i]: the generator is reseeded with
    [42 + i], then drawn from twice. *)
Definition temperature_at (R : numpy_random) (start_month_num : Z)
    (temp_mult : Q) (i : Z) : Q :=
  inject_Z (base_climate (month_num start_month_num i)).1 * temp_mult
    * (random_normal R 1.0 0.05 (random_seed R (42 + i))).1.

Definition rainfall_at (R : numpy_random) (start_month_num : Z)
    (rain_mult : Q) (i : Z) : Q :=
  inject_Z (base_climate (month_num start_month_num i)).2 * rain_mult
    * (random_normal R 1.0 0.1
         (random_normal R 1.0 0.05 (random_seed R (42 + i))).2).1.

(** NumPy's generator state once step [i] has drawn twice. *)
Definition rng_after (R : numpy_random) (i : Z) : rng_state R :=
  (random_normal R 1.0 0.1
     (random_normal R 1.0 0.05 (random_seed R (42 + i))).2).2.

(** The forward climate sequence: the rows [[temperatures[i], rainfalls[i]]]. *)
Definition forward_sequence (R : numpy_random) (start_month_num : Z)
    (temp_mult rain_mult : Q) (forecast_months : Z) : list (Q * Q) :=
  (λ i, (temperature_at R start_month_num temp_mult i,
         rainfall_at R start_month_num rain_mult i)) <$> range forecast_months.

(** The three lists once the climate loop has run. *)
Definition climate_at (R : numpy_random) (start_month_num : Z)
    (temp_mult rain_mult : Q) (forecast_months : Z) : climate :=
  {| months := label_at start_month_num <$> range forecast_months;
     temperatures := temperature_at R start_month_num temp_mult <$> range forecast_months;
     rainfalls := rainfall_at R start_month_num rain_mult <$> range forecast_months |}.

(** The row appended to [historical_months] for loop index [i]. *)
Definition historical_point (start_month_num i : Z) : Q * Q :=
  let month_num := ((start_month_num - i) `mod` 12)%Z in
  let month_num := if (month_num =? 0)%Z then 12%Z else month_num in
  (inject_Z (base_climate month_num).1, inject_Z (base_climate month_num).2).

(** The seed window: the twelve months before the start month. *)
Definition seed_window (start_month_num : Z) : list (Q * Q) :=
  historical_point start_month_num <$> range_down 12 0.

(** [current_sequence] once [k] steps of the forecast loop have run. *)
Definition window_at (historical_months forward : list (Q * Q)) (k : nat)
    : list (Q * Q) :=
  take 12 (drop k (historical_months ++ forward)).

(** The model's denormalised output on a window (reference calibration). *)
Definition reference_mwh (M : lstm) (window : list (Q * Q)) : Q :=
  scaler_y_inverse_transform M (model_predict M (scaler_X_transform M window)).

(** [scaled_prediction] of step [k]. *)
Definition scaled_prediction_at (M : lstm) (base_power_mw : Q)
    (historical_months forward : list (Q * Q)) (k : nat) : Q :=
  reference_mwh M (window_at historical_months forward k) * scale_factor base_power_mw.

(** The loop state once [k] steps have run. *)
Definition state_at (M : lstm) (base_power_mw : Q)
    (historical_months forward : list (Q * Q)) (k : nat) : forecast_state :=
  let scaled := scaled_prediction_at M base_power_mw historical_months forward <$> seq 0 k in
  {| current_sequence := window_at historical_months forward k;
     predictions_mwh := scaled;
     confidence_lower := (λ e, e * 0.85) <$> scaled;
     confidence_upper := (λ e, e * 1.15) <$> scaled |}.

End TimeSeriesPredictor.

(** ** A concrete predictor and generator, to run the definitions *)

Module Demo.

Import TimeSeriesPredictor.
Local Open Scope Q_scope.

(** A min-max style input scaler, a model averaging the scaled rainfall,
    and an output scaler onto the 3500 MWh reference. *)
Definition demo_lstm : lstm := {|
  scaler_X_row := λ '(t, r), (t / 40, r / 400);
  model_predict := λ w, py_sum (snd <$> w) / 12;
  scaler_y_inverse_transform := λ y, y * 3500
|}.

(** A linear congruential generator; a draw is [loc] plus [scale] times a
    value in [[-1, 1)]. *)
Definition demo_random : numpy_random := {|
  rng_state := Z;
  random_seed := λ n, (n `mod` 65536)%Z;
  random_normal := λ loc scale s,
    let s' := ((75 * s + 74) `mod` 65537)%Z in
    (loc + scale * (inject_Z (s' - 32768) / 32768), s')
|}.

End Demo.

(** ** pages/1_PDF_Analyzer.py: extraction results and validation

    The regular-expression searches themselves are not modelled: the
    functions take what [re.findall] / [re.search] return for each pattern
    (captured groups already converted by [float] or [int]) and model the
    selection, defaulting and validation logic applied to them. *)

Module PDFAnalyzerPage.

Import PDFAnalyzer.
Local Open Scope string_scope.
Local Open Scope list_scope.
Local Open Scope Q_scope.




(** The loops over [lat_patterns] / [lon_patterns]: the first pattern whose
    [re.search] succeeded gives the value. *)
Fixpoint first_search (searches : list (option Q)) : option Q :=
  match searches with
  | [] => None
  | Some v :: _ => Some v
  | None :: rest => first_search rest
  end.

(** "Location Data": detected coordinates, validated against the legal
    ranges and reset to the default Bangladesh location when outside. *)
Definition location_data (lat_searches lon_searches : list (option Q)) : Q * Q * bool :=
  let default_lat := 23.8103 in
  let default_lon := 90.4125 in
  let coords_found := false in
  let '(default_lat, coords_found) :=
    match first_search lat_searches with
    | Some v => (v, true)
    | None => (default_lat, coords_found)
    end in
  let '(default_lon, coords_found) :=
    match first_search lon_searches with
    | Some v => (v, true)
    | None => (default_lon, coords_found)
    end in
  if coords_found then
    let default_lat :=
      if Qltb default_lat (-90) || Qgtb default_lat 90 then 23.8103 else default_lat in
    let default_lon :=
      if Qltb default_lon (-180) || Qgtb default_lon 180 then 90.4125 else default_lon in
    (default_lat, default_lon, coords_found)
  else (default_lat, default_lon, coords_found).

(** The final validation of "Send Data to Geographic Calculator".
    [name_missing] is [not location_name or location_name.strip() == ""]. *)
Definition validation_errors (name_missing : bool)
    (waterfall_flow waterfall_height geo_temp : Q) : list string :=
  (if name_missing then ["ERROR: Location name is required"] else [])
  ++ (if negb (has_waterfall waterfall_flow waterfall_height)
         && negb (has_geothermal geo_temp)
      then ["ERROR: No viable energy source. Document must contain either waterfall data or geothermal data with temperature ≥ 50°C"]
      else [])
  ++ (if (Qgtb waterfall_flow 0 && Qeq_bool waterfall_height 0)
         || (Qeq_bool waterfall_flow 0 && Qgtb waterfall_height 0)
      then ["WARNING: Incomplete waterfall data - both height and flow are required"]
      else []).

(** [[e for e in validation_errors if e.startswith("ERROR")]]. *)
Definition critical_errors (validation_errors : list string) : list string :=
  filter (λ e, String.prefix "ERROR" e = true) validation_errors.

(** The data reaches [st.session_state.pdf_extracted] unless [st.stop()]
    is called on a critical error. *)
Definition data_sent (name_missing : bool)
    (waterfall_flow waterfall_height geo_temp : Q) : bool :=
  bool_decide (critical_errors
                 (validation_errors name_missing waterfall_flow waterfall_height geo_temp)
               = []).

End PDFAnalyzerPage.

(** ** pages/2_Geographic_Calculator.py: the "Analysis" tab *)

Module Analysis.

Local Open Scope list_scope.
Local Open Scope Q_scope.

(** [np.linspace(start, stop, num)] for [num > 1]: the samples
    [i * step + start] with [step = (stop - start) / (num - 1)], the last
    one overwritten by [stop]. *)
Definition linspace (start stop : Q) (num : Z) : list Q :=
  let div := (num - 1)%Z in
  let step := (stop - start) / inject_Z div in
  let y := (λ i, inject_Z i * step + start) <$> range num in
  <[Z.to_nat (num - 1) := stop]> y.

(** Sensitivity to the flow rate: [flow_range] and [power_range]. *)
Definition flow_sensitivity (base_flow base_height : Q) : list Q * list Q :=
  let flow_range := linspace (base_flow * 0.5) (base_flow * 1.5) 50 in
  let power_range :=
    (λ f, 1000 * 9.81 * f * base_height * 0.9 / 1_000_000) <$> flow_range in
  (flow_range, power_range).

(** Sensitivity to the waterfall height. *)
Definition height_sensitivity (base_flow base_height : Q) : list Q * list Q :=
  let height_range := linspace (base_height * 0.5) (base_height * 1.5) 50 in
  let power_range :=
    (λ h, 1000 * 9.81 * base_flow * h * 0.9 / 1_000_000) <$> height_range in
  (height_range, power_range).

(** Sensitivity to the underground temperature. *)
Definition temperature_sensitivity : list Q * list Q :=
  let temp_range := linspace 150 400 50 in
  let power_range := (λ t, (50 * 4.18 * (t - 25) * 0.15) / 1000) <$> temp_range in
  (temp_range, power_range).

(** Sensitivity to the drilling depth.  The division by [base_depth]
    raises [ZeroDivisionError] ([None]) when it is zero. *)
Definition depth_sensitivity (base_depth base_temp : Q) : option (list Q * list Q) :=
  let surface_temp := 25 in
  if Qeq_bool base_depth 0 then None
  else
    let gradient := (base_temp - surface_temp) / base_depth in
    let depth_range := linspace 1 10 50 in
    let temp_at_depth := (λ d, surface_temp + gradient * d) <$> depth_range in
    let power_range :=
      (λ t, (50 * 4.18 * (t - surface_temp) * 0.15) / 1000) <$> temp_at_depth in
    Some (depth_range, power_range).

End Analysis.

(** ** pages/3_Time_Series_Predictor.py: calculator hand-over and export *)

Module ForecastPage.

Import GeographicCalculator TimeSeriesPredictor.
Local Open Scope list_scope.
Local Open Scope Q_scope.

(** "Generate LSTM Forecast" on the data stored by the calculator:
    [base_power_mw], [waterfall_mw] and [geo_mw] are the entries
    ['P_total_MW'], ['P_waterfall_MW'] and ['P_geo_MW'] of [geo_data]. *)
Definition forecast_from_geo_data (M : lstm) (R : numpy_random) (r0 : rng_state R)
    (geo : geo_data) (forecast_months : Z) (start_month climate_scenario : string)
    : option (predictions * rng_state R) :=
  generate_lstm_forecast M R r0 (P_total_MW geo) (P_waterfall_MW geo) (P_geo_MW geo)
    forecast_months start_month climate_scenario.




(** The 'Households' column of "View Detailed Monthly Predictions". *)
Definition monthly_households (p : predictions) : list Z :=
  (λ e, int (e * 1000 / 7.2)) <$> total_mwh p.

(** [difference_pct] of the "Comparison" tab. *)
Definition difference_pct (predicted_annual actual_annual : Q) : Q :=
  if Qgtb actual_annual 0
  then (predicted_annual - actual_annual) / actual_annual * 100
  else 0.

(** The climate one row of the rolling window stands for, by its offset
    [i] from the first forecast month: the monthly table for the months
    before the start month, the generated forward sequence from there on. *)
Definition climate_row (R : numpy_random) (start_month_num : Z)
    (temp_mult rain_mult : Q) (i : Z) : Q * Q :=
  if (i <? 0)%Z then
    (inject_Z (base_climate (month_num start_month_num i)).1,
     inject_Z (base_climate (month_num start_month_num i)).2)
  else
    (temperature_at R start_month_num temp_mult i,
     rainfall_at R start_month_num rain_mult i).

End ForecastPage.

(** ** pages/2_Geographic_Calculator.py: the form values kept across reruns

    The numeric entries of [st.session_state] ([form_latitude], ...), of
    [st.session_state.pdf_extracted] and of [st.session_state.geo_data] are
    finite maps from keys to numbers; the text entry ['location_name'] is
    left out, and [pdf_extracted] is either empty or filled by the
    analyzer. *)

Module FormState.

Local Open Scope string_scope.
Local Open Scope Q_scope.

(** [d.get(key, default)]. *)
Definition get (d : gmap string Q) (key : string) (default : Q) : Q :=
  match d !! key with Some v => v | None => default end.

(** [if key not in st.session_state: st.session_state[key] = value]. *)
Definition set_if_missing (key : string) (value : Q) (session_state : gmap string Q)
    : gmap string Q :=
  match session_state !! key with
  | Some _ => session_state
  | None => <[key := value]> session_state
  end.

(** The initial values chosen from the input method. *)
Record initial := {
  initial_latitude : Q;
  initial_longitude : Q;
  initial_waterfall_height : Q;
  initial_waterfall_flow : Q;
  initial_geo_temp : Q;
  initial_depth : Q
}.

Definition clicked (geo_data : gmap string Q) : bool :=
  bool_decide (is_Some (geo_data !! "clicked_lat"))
  && bool_decide (is_Some (geo_data !! "clicked_lng")).

Definition initial_values (input_method : string)
    (pdf_extracted geo_data : gmap string Q) : initial :=
  if bool_decide (input_method = "Use PDF Data") && bool_decide (pdf_extracted ≠ ∅) then
    {| initial_latitude := get pdf_extracted "latitude" 23.8103;
       initial_longitude := get pdf_extracted "longitude" 90.4125;
       initial_waterfall_height := get pdf_extracted "waterfall_height" 0.0;
       initial_waterfall_flow := get pdf_extracted "waterfall_flow" 0.0;
       initial_geo_temp := get pdf_extracted "geo_temp" 0.0;
       initial_depth := get pdf_extracted "depth" 3.0 |}
  else if bool_decide (input_method = "Use PDF Data") then
    {| initial_latitude := 23.8103; initial_longitude := 90.4125;
       initial_waterfall_height := 0.0; initial_waterfall_flow := 0.0;
       initial_geo_temp := 0.0; initial_depth := 3.0 |}
  else if bool_decide (input_method = "Click on Map") then
    {| initial_latitude :=
         if clicked geo_data then get geo_data "clicked_lat" 23.8103 else 23.8103;
       initial_longitude :=
         if clicked geo_data then get geo_data "clicked_lng" 90.4125 else 90.4125;
       initial_waterfall_height := 50.0; initial_waterfall_flow := 10.0;
       initial_geo_temp := 200.0; initial_depth := 3.0 |}
  else
    (* "Batch Analysis (CSV)" and "Manual Entry" *)
    {| initial_latitude := 23.8103; initial_longitude := 90.4125;
       initial_waterfall_height := 50.0; initial_waterfall_flow := 10.0;
       initial_geo_temp := 200.0; initial_depth := 3.0 |}.

(** The six form keys. *)
Definition form_keys : list string :=
  ["form_latitude"; "form_longitude"; "form_waterfall_height";
   "form_waterfall_flow"; "form_geo_temp"; "form_depth"].

(** The block from "Initialize form data in session state" to the input
    fields.  Reading ['clicked_lng'] raises [KeyError] ([None]) when only
    ['clicked_lat'] is present. *)
Definition form_setup (input_method : string)
    (pdf_extracted geo_data session_state : gmap string Q)
    : option (gmap string Q) :=
  let init := initial_values input_method pdf_extracted geo_data in
  let ss := set_if_missing "form_latitude" (initial_latitude init) session_state in
  let ss := set_if_missing "form_longitude" (initial_longitude init) ss in
  let ss := set_if_missing "form_waterfall_height" (initial_waterfall_height init) ss in
  let ss := set_if_missing "form_waterfall_flow" (initial_waterfall_flow init) ss in
  let ss := set_if_missing "form_geo_temp" (initial_geo_temp init) ss in
  let ss := set_if_missing "form_depth" (initial_depth init) ss in
  ss ←
    (if bool_decide (input_method = "Click on Map")
        && bool_decide (is_Some (geo_data !! "clicked_lat"))
     then
       lat ← geo_data !! "clicked_lat";
       lng ← geo_data !! "clicked_lng";
       Some (<["form_longitude" := lng]> (<["form_latitude" := lat]> ss))
     else Some ss);
  Some
    (if bool_decide (input_method = "Use PDF Data") && bool_decide (pdf_extracted ≠ ∅)
     then
       <["form_depth" := initial_depth init]>
         (<["form_geo_temp" := initial_geo_temp init]>
            (<["form_waterfall_flow" := initial_waterfall_flow init]>
               (<["form_waterfall_height" := initial_waterfall_height init]>
                  (<["form_longitude" := initial_longitude init]>
                     (<["form_latitude" := initial_latitude init]> ss)))))
     else ss).

(** The session state once the six "Initialize form data" steps have
    run. *)
Definition with_defaults (init : initial) (session_state : gmap string Q)
    : gmap string Q :=
  set_if_missing "form_depth" (initial_depth init)
    (set_if_missing "form_geo_temp" (initial_geo_temp init)
       (set_if_missing "form_waterfall_flow" (initial_waterfall_flow init)
          (set_if_missing "form_waterfall_height" (initial_waterfall_height init)
             (set_if_missing "form_longitude" (initial_longitude init)
                (set_if_missing "form_latitude" (initial_latitude init)
                   session_state))))).

End FormState.

(** * Properties *)

(** ** Comparisons and the Python helpers *)

Section Helpers.

Local Open Scope Q_scope.

Lemma Qgtb_true (a b : Q) : Qgtb a b = true ↔ b < a.
Proof.
  unfold Qgtb. rewrite negb_true_iff, <- not_true_iff_false, Qle_bool_iff.
  split; [apply Qnot_le_lt | apply Qlt_not_le].
Qed.

Lemma Qgtb_false (a b : Q) : Qgtb a b = false ↔ a <= b.
Proof. unfold Qgtb. by rewrite negb_false_iff, Qle_bool_iff. Qed.

Lemma Qltb_true (a b : Q) : Qltb a b = true ↔ a < b.
Proof. apply Qgtb_true. Qed.

Lemma Qgeb_true (a b : Q) : Qgeb a b = true ↔ b <= a.
Proof. apply Qle_bool_iff. Qed.

Lemma Qgtb_zero_r (a : Q) : a == 0 → Qgtb a 0 = false.
Proof. intros H. apply Qgtb_false. rewrite H. apply Qle_refl. Qed.

End Helpers.

Section Loops.

Context {S : Type}.
Implicit Types (body : S → Z → option S) (idx : list Z) (s : S).

Lemma for_each_app body idx1 idx2 s :
  for_each body (idx1 ++ idx2) s = s' ← for_each body idx1 s; for_each body idx2 s'.
Proof.
  revert s. induction idx1 as [|i idx1 IH]; intros s; simpl; [done|].
  destruct (body s i) as [s'|]; simpl; [apply IH | done].
Qed.

Lemma for_each_snoc body idx i s s' :
  for_each body idx s = Some s' →
  for_each body (idx ++ [i]) s = body s' i.
Proof.
  intros H. rewrite for_each_app, H. simpl. by destruct (body s' i).
Qed.

End Loops.

Section Ranges.

Lemma range_of_nat (n : nat) : range (Z.of_nat n) = Z.of_nat <$> seq 0 n.
Proof. unfold range. by rewrite Nat2Z.id. Qed.

Lemma range_succ (n : nat) :
  range (Z.of_nat (S n)) = range (Z.of_nat n) ++ [Z.of_nat n].
Proof. rewrite !range_of_nat, seq_S, fmap_app. done. Qed.

Lemma length_range (n : Z) : length (range n) = Z.to_nat n.
Proof. unfold range. by rewrite length_fmap, length_seq. Qed.

Lemma lookup_range (n : Z) (i : nat) :
  (i < Z.to_nat n)%nat → range n !! i = Some (Z.of_nat i).
Proof.
  intros Hi. unfold range. rewrite list_lookup_fmap, lookup_seq_lt; done.
Qed.

Lemma range_to_nat (n : Z) : range n = range (Z.of_nat (Z.to_nat n)).
Proof. unfold range. by rewrite Nat2Z.id. Qed.

Lemma py_index_of_nat {A} (l : list A) (i : nat) : py_index l (Z.of_nat i) = l !! i.
Proof.
  unfold py_index. destruct (Z.ltb_spec (Z.of_nat i) 0); [lia|].
  by rewrite Nat2Z.id.
Qed.

End Ranges.

(** ** The energy estimator *)

Section Estimator.

Import GeographicCalculator.
Local Open Scope Q_scope.

Implicit Types (waterfall_height waterfall_flow geo_temp depth : Q).
Implicit Types (turbine_efficiency geo_efficiency capacity_factor : Q).

(** The waterfall branch, when both guards hold. *)
Lemma waterfall_viable waterfall_height waterfall_flow turbine_efficiency :
  0 < waterfall_height → 0 < waterfall_flow →
  waterfall_calculations waterfall_height waterfall_flow turbine_efficiency =
    let P := rho * g * waterfall_flow * waterfall_height * turbine_efficiency / 1_000_000 in
    (P, P * 24 * 365, int (P * 24 * 365 * 1000 / 7.2), true).
Proof.
  intros Hh Hq. unfold waterfall_calculations.
  apply Qgtb_true in Hh, Hq. by rewrite Hh, Hq.
Qed.

(** The geothermal branch, when both guards hold. *)
Lemma geothermal_viable geo_temp depth geo_efficiency capacity_factor :
  50 < geo_temp → 0 < depth →
  ∃ material cost,
    geothermal_calculations geo_temp depth geo_efficiency capacity_factor =
      let thermal := 50.0 * specific_heat * (geo_temp - surface_temp) in
      let P := thermal * geo_efficiency / 1000 in
      let E := P * 24 * 365 * capacity_factor in
      (Some thermal, P, E, int (E * 1000 / 7.2), material, cost, true).
Proof.
  intros HT Hd. unfold geothermal_calculations.
  apply Qgtb_true in HT, Hd. rewrite HT, Hd. simpl.
  destruct (Qltb geo_temp 300); [|destruct (Qltb geo_temp 600)]; eauto.
Qed.

(** The geothermal branch, when the temperature guard fails. *)
Lemma geothermal_not_viable geo_temp depth geo_efficiency capacity_factor :
  geo_temp <= 50 →
  geothermal_calculations geo_temp depth geo_efficiency capacity_factor =
    (None, 0, 0, 0%Z, "N/A"%string, 0, false).
Proof.
  intros HT. unfold geothermal_calculations.
  apply Qgtb_false in HT. by rewrite HT.
Qed.

(** Projections of the handler's result onto the two branches. *)
Lemma P_geo_MW_calculate waterfall_height waterfall_flow geo_temp depth
    turbine_efficiency geo_efficiency capacity_factor :
  P_geo_MW (calculate_energy_potential waterfall_height waterfall_flow geo_temp depth
              turbine_efficiency geo_efficiency capacity_factor)
  = (geothermal_calculations geo_temp depth geo_efficiency capacity_factor).1.1.1.1.1.2.
Proof.
  unfold calculate_energy_potential.
  destruct (waterfall_calculations _ _ _) as [[[? ?] ?] ?].
  by destruct (geothermal_calculations _ _ _ _) as [[[[[[? ?] ?] ?] ?] ?] ?].
Qed.

Lemma E_geo_year_MWh_calculate waterfall_height waterfall_flow geo_temp depth
    turbine_efficiency geo_efficiency capacity_factor :
  E_geo_year_MWh (calculate_energy_potential waterfall_height waterfall_flow geo_temp depth
                    turbine_efficiency geo_efficiency capacity_factor)
  = (geothermal_calculations geo_temp depth geo_efficiency capacity_factor).1.1.1.1.2.
Proof.
  unfold calculate_energy_potential.
  destruct (waterfall_calculations _ _ _) as [[[? ?] ?] ?].
  by destruct (geothermal_calculations _ _ _ _) as [[[[[[? ?] ?] ?] ?] ?] ?].
Qed.

Lemma thermal_power_kW_calculate waterfall_height waterfall_flow geo_temp depth
    turbine_efficiency geo_efficiency capacity_factor :
  thermal_power_kW (calculate_energy_potential waterfall_height waterfall_flow geo_temp depth
                      turbine_efficiency geo_efficiency capacity_factor)
  = (geothermal_calculations geo_temp depth geo_efficiency capacity_factor).1.1.1.1.1.1.
Proof.
  unfold calculate_energy_potential.
  destruct (waterfall_calculations _ _ _) as [[[? ?] ?] ?].
  by destruct (geothermal_calculations _ _ _ _) as [[[[[[? ?] ?] ?] ?] ?] ?].
Qed.

Lemma P_waterfall_MW_calculate waterfall_height waterfall_flow geo_temp depth
    turbine_efficiency geo_efficiency capacity_factor :
  P_waterfall_MW (calculate_energy_potential waterfall_height waterfall_flow geo_temp depth
                    turbine_efficiency geo_efficiency capacity_factor)
  = (waterfall_calculations waterfall_height waterfall_flow turbine_efficiency).1.1.1.
Proof.
  unfold calculate_energy_potential.
  destruct (waterfall_calculations _ _ _) as [[[? ?] ?] ?].
  by destruct (geothermal_calculations _ _ _ _) as [[[[[[? ?] ?] ?] ?] ?] ?].
Qed.

Lemma E_waterfall_year_MWh_calculate waterfall_height waterfall_flow geo_temp depth
    turbine_efficiency geo_efficiency capacity_factor :
  E_waterfall_year_MWh (calculate_energy_potential waterfall_height waterfall_flow geo_temp depth
                          turbine_efficiency geo_efficiency capacity_factor)
  = (waterfall_calculations waterfall_height waterfall_flow turbine_efficiency).1.1.2.
Proof.
  unfold calculate_energy_potential.
  destruct (waterfall_calculations _ _ _) as [[[? ?] ?] ?].
  by destruct (geothermal_calculations _ _ _ _) as [[[[[[? ?] ?] ?] ?] ?] ?].
Qed.

(** Below and at 50 degrees the calculator reports no geothermal power. *)
Lemma geothermal_power_zero_up_to_50 waterfall_height waterfall_flow geo_temp depth
    turbine_efficiency geo_efficiency capacity_factor :
  geo_temp <= 50 →
  P_geo_MW (calculate_energy_potential waterfall_height waterfall_flow geo_temp depth
              turbine_efficiency geo_efficiency capacity_factor) = 0.
Proof.
  intros HT. by rewrite P_geo_MW_calculate, geothermal_not_viable.
Qed.

(** Above 50 degrees it is the closed formula ... *)
Lemma geothermal_power_above_50 waterfall_height waterfall_flow geo_temp depth
    turbine_efficiency geo_efficiency capacity_factor :
  50 < geo_temp → 0 < depth →
  P_geo_MW (calculate_energy_potential waterfall_height waterfall_flow geo_temp depth
              turbine_efficiency geo_efficiency capacity_factor)
  = 50.0 * specific_heat * (geo_temp - surface_temp) * geo_efficiency / 1000.
Proof.
  intros HT Hd. rewrite P_geo_MW_calculate.
  by destruct (geothermal_viable geo_temp depth geo_efficiency capacity_factor HT Hd)
    as (? & ? & ->).
Qed.

(** ... which is strictly positive ... *)
Lemma geothermal_power_positive waterfall_height waterfall_flow geo_temp depth
    turbine_efficiency geo_efficiency capacity_factor :
  50 < geo_temp → 0 < depth → 0 < geo_efficiency →
  0 < P_geo_MW (calculate_energy_potential waterfall_height waterfall_flow geo_temp depth
                  turbine_efficiency geo_efficiency capacity_factor).
Proof.
  intros HT Hd He. rewrite geothermal_power_above_50 by done.
  unfold specific_heat, surface_temp.
  apply Qlt_shift_div_l; [done|]. nra.
Qed.

(** ... and strictly increasing in the temperature. *)
Lemma geothermal_power_increasing waterfall_height waterfall_flow depth
    turbine_efficiency geo_efficiency capacity_factor (T1 T2 : Q) :
  50 < T1 → T1 < T2 → 0 < depth → 0 < geo_efficiency →
  P_geo_MW (calculate_energy_potential waterfall_height waterfall_flow T1 depth
              turbine_efficiency geo_efficiency capacity_factor)
  < P_geo_MW (calculate_energy_potential waterfall_height waterfall_flow T2 depth
                turbine_efficiency geo_efficiency capacity_factor).
Proof.
  intros H1 H12 Hd He.
  rewrite !geothermal_power_above_50 by (done || lra).
  unfold specific_heat, surface_temp.
  apply Qmult_lt_compat_r; [done|]. nra.
Qed.

Lemma has_geothermal_calculate waterfall_height waterfall_flow geo_temp depth
    turbine_efficiency geo_efficiency capacity_factor :
  has_geothermal (calculate_energy_potential waterfall_height waterfall_flow geo_temp depth
                    turbine_efficiency geo_efficiency capacity_factor)
  = Qgtb geo_temp 50 && Qgtb depth 0.
Proof.
  unfold calculate_energy_potential, geothermal_calculations.
  destruct (waterfall_calculations _ _ _) as [[[? ?] ?] ?].
  destruct (Qgtb geo_temp 50 && Qgtb depth 0); [|done].
  by destruct (Qltb geo_temp 300); [|destruct (Qltb geo_temp 600)].
Qed.

(** With a positive depth, the analyzer's viability check and the
    calculator's guard agree at every temperature other than 50. *)
Lemma viability_checks_agree_off_50 waterfall_height waterfall_flow geo_temp depth
    turbine_efficiency geo_efficiency capacity_factor :
  0 < depth → ¬ geo_temp == 50 →
  PDFAnalyzer.has_geothermal geo_temp
  = has_geothermal (calculate_energy_potential waterfall_height waterfall_flow geo_temp depth
                      turbine_efficiency geo_efficiency capacity_factor).
Proof.
  intros Hd Hne. rewrite has_geothermal_calculate.
  apply Qgtb_true in Hd. rewrite Hd, andb_true_r.
  destruct (Qgtb geo_temp 50) eqn:Hg.
  - apply Qgeb_true, Qlt_le_weak. by apply Qgtb_true.
  - apply Qgtb_false in Hg. apply not_true_iff_false. intros Hge.
    apply Qgeb_true in Hge. apply Hne. by apply Qle_antisym.
Qed.

End Estimator.

Section EstimatorClaims.

Import GeographicCalculator.
Local Open Scope Q_scope.

(** C1 (the 50 degree boundary).  The claim asks for strictly positive
    geothermal power at every temperature [>= 50].  At exactly 50 degrees
    the PDF analyzer's viability check ([geo_temp >= 50]) accepts the
    source, while the calculator's guard ([geo_temp > 50]) rejects it: the
    single-location handler reports no geothermal source and zero power,
    and so does the batch path, whatever the other inputs are. *)
Theorem geothermal_threshold_at_50
    (waterfall_height waterfall_flow depth
     turbine_efficiency geo_efficiency capacity_factor : Q) :
  PDFAnalyzer.has_geothermal 50 = true
  ∧ has_geothermal (calculate_energy_potential waterfall_height waterfall_flow 50 depth
                      turbine_efficiency geo_efficiency capacity_factor) = false
  ∧ P_geo_MW (calculate_energy_potential waterfall_height waterfall_flow 50 depth
                turbine_efficiency geo_efficiency capacity_factor) = 0
  ∧ p_geo (process_location waterfall_height waterfall_flow 50 depth) = 0.
Proof.
  split; [reflexivity|]. split; [|split].
  - unfold calculate_energy_potential.
    destruct (waterfall_calculations _ _ _) as [[[? ?] ?] ?].
    by rewrite geothermal_not_viable.
  - by apply geothermal_power_zero_up_to_50.
  - unfold process_location.
    by destruct (Qgtb waterfall_height 0 && Qgtb waterfall_flow 0).
Qed.

(** C5.  With flow [Q > 0] and height [H > 0], waterfall power is
    [1000 * 9.81 * Q * H * eta / 1e6] MW and the annual energy is that
    power times [24 * 365] MWh; for [Q = 10], [H = 50], [eta = 0.9] the
    power is 4.4145 MW, which is 4.415 to three decimals. *)
Theorem waterfall_power_formula
    (waterfall_height waterfall_flow geo_temp depth
     turbine_efficiency geo_efficiency capacity_factor : Q) :
  0 < waterfall_flow → 0 < waterfall_height →
  let r := calculate_energy_potential waterfall_height waterfall_flow geo_temp depth
             turbine_efficiency geo_efficiency capacity_factor in
  let r1 := calculate_energy_potential 50 10 geo_temp depth
              0.9 geo_efficiency capacity_factor in
  P_waterfall_MW r
    == 1000 * 9.81 * waterfall_flow * waterfall_height * turbine_efficiency / 1000000
  ∧ E_waterfall_year_MWh r == P_waterfall_MW r * (24 * 365)
  ∧ P_waterfall_MW r1 == 4.4145
  ∧ Qabs (P_waterfall_MW r1 - 4.415) <= 0.0005.
Proof.
  intros Hq Hh r r1. subst r r1.
  rewrite !P_waterfall_MW_calculate, E_waterfall_year_MWh_calculate.
  rewrite waterfall_viable by done. simpl.
  split; [reflexivity|]. split; [ring|].
  split; [reflexivity|]. by vm_compute.
Qed.

Lemma waterfall_power_formula_witness :
  (0 < 10 ∧ 0 < 50)
  ∧ P_waterfall_MW (calculate_energy_potential 50 10 200 3 0.9 0.15 0.85) == 4.4145.
Proof.
  split; [by split|].
  destruct (waterfall_power_formula 50 10 200 3 0.9 0.15 0.85) as (_ & _ & H & _);
    [reflexivity | reflexivity | exact H].
Defined.

(** C6, the scenario as the claim states it: the annual energy computed
    for [T = 200], efficiency 0.15 and capacity factor 0.85 is
    40850.6175 MWh, more than 17 MWh away from the stated 40,868. *)
Lemma geothermal_scenario_annual_energy_not_40868 :
  let r := calculate_energy_potential 50 10 200 3 0.9 0.15 0.85 in
  E_geo_year_MWh r == 40850.6175
  ∧ ¬ (Qabs (E_geo_year_MWh r - 40868) <= 17).
Proof.
  split; [reflexivity|]. by vm_compute.
Qed.

(** C6, amended.  For every geothermal input above 50 degrees with
    positive depth, thermal power is [50 * 4.18 * (T - 25)] kW,
    electrical power is [thermal * geo_efficiency / 1000] MW and the
    annual energy is that power times [24 * 365] times the capacity
    factor; for [T = 200], efficiency 0.15 and capacity factor 0.85 this
    gives 36575 kW, 5.48625 MW (5.486 to three decimals) and
    40850.6175 MWh (40,851 to the nearest MWh). *)
Theorem geothermal_power_formula
    (waterfall_height waterfall_flow geo_temp depth
     turbine_efficiency geo_efficiency capacity_factor : Q) :
  50 < geo_temp → 0 < depth →
  let r := calculate_energy_potential waterfall_height waterfall_flow geo_temp depth
             turbine_efficiency geo_efficiency capacity_factor in
  let r2 := calculate_energy_potential waterfall_height waterfall_flow 200 depth
              turbine_efficiency 0.15 0.85 in
  (∃ thermal, thermal_power_kW r = Some thermal
     ∧ thermal == 50 * 4.18 * (geo_temp - 25)
     ∧ P_geo_MW r == thermal * geo_efficiency / 1000)
  ∧ E_geo_year_MWh r == P_geo_MW r * (24 * 365) * capacity_factor
  ∧ (∃ thermal, thermal_power_kW r2 = Some thermal ∧ thermal == 36575)
  ∧ P_geo_MW r2 == 5.48625
  ∧ Qabs (P_geo_MW r2 - 5.486) <= 0.0005
  ∧ E_geo_year_MWh r2 == 40850.6175
  ∧ Qabs (E_geo_year_MWh r2 - 40851) <= 0.5.
Proof.
  intros HT Hd r r2. subst r r2.
  rewrite !P_geo_MW_calculate, !E_geo_year_MWh_calculate, !thermal_power_kW_calculate.
  destruct (geothermal_viable geo_temp depth geo_efficiency capacity_factor HT Hd)
    as (m & c & ->).
  destruct (geothermal_viable 200 depth 0.15 0.85 eq_refl Hd) as (m2 & c2 & ->).
  simpl. unfold specific_heat, surface_temp.
  split; [eexists; split; [reflexivity|]; split; [ring | reflexivity]|].
  split; [ring|].
  split; [eexists; split; [reflexivity | reflexivity]|].
  split; [reflexivity|]. split; [by vm_compute|].
  split; [reflexivity|]. by vm_compute.
Qed.

Lemma geothermal_power_formula_witness :
  (50 < 200 ∧ 0 < 3)
  ∧ E_geo_year_MWh (calculate_energy_potential 50 10 200 3 0.9 0.15 0.85) == 40850.6175.
Proof.
  split; [by split|].
  destruct (geothermal_power_formula 50 10 200 3 0.9 0.15 0.85)
    as (_ & _ & _ & _ & _ & H & _); [reflexivity | reflexivity | exact H].
Defined.

(** C10.  Geothermal power and annual energy do not depend on the
    drilling depth: for any two positive depths and otherwise equal
    inputs they are identical.  The depth only takes part in the guard: a
    non-positive depth gives zero power. *)
Theorem geothermal_independent_of_depth
    (waterfall_height waterfall_flow geo_temp
     turbine_efficiency geo_efficiency capacity_factor d1 d2 : Q) :
  0 < d1 → 0 < d2 →
  let r1 := calculate_energy_potential waterfall_height waterfall_flow geo_temp d1
              turbine_efficiency geo_efficiency capacity_factor in
  let r2 := calculate_energy_potential waterfall_height waterfall_flow geo_temp d2
              turbine_efficiency geo_efficiency capacity_factor in
  P_geo_MW r1 = P_geo_MW r2
  ∧ E_geo_year_MWh r1 = E_geo_year_MWh r2
  ∧ (∀ d0, d0 <= 0 →
       P_geo_MW (calculate_energy_potential waterfall_height waterfall_flow geo_temp d0
                   turbine_efficiency geo_efficiency capacity_factor) = 0).
Proof.
  intros H1 H2 r1 r2. subst r1 r2.
  rewrite !P_geo_MW_calculate, !E_geo_year_MWh_calculate.
  unfold geothermal_calculations.
  apply Qgtb_true in H1, H2. rewrite H1, H2.
  split; [done|]. split; [done|].
  intros d0 Hd0. rewrite P_geo_MW_calculate. unfold geothermal_calculations.
  apply Qgtb_false in Hd0. rewrite Hd0, andb_false_r. done.
Qed.

Lemma geothermal_independent_of_depth_witness :
  (0 < 0.5 ∧ 0 < 10)
  ∧ P_geo_MW (calculate_energy_potential 50 10 200 0.5 0.9 0.15 0.85)
    = P_geo_MW (calculate_energy_potential 50 10 200 10 0.9 0.15 0.85).
Proof.
  split; [by split|].
  destruct (geothermal_independent_of_depth 50 10 200 0.9 0.15 0.85 0.5 10)
    as (H & _); [reflexivity | reflexivity | exact H].
Defined.

End EstimatorClaims.

(** ** The climate scenario generator *)

Section Generator.

Import TimeSeriesPredictor.
Local Open Scope Q_scope.

Variable R : numpy_random.

Lemma month_num_bounds (s i : Z) : (1 ≤ month_num s i ≤ 12)%Z.
Proof. unfold month_num. pose proof (Z.mod_pos_bound (s + i - 1) 12). lia. Qed.

Lemma bangladesh_climate_lookup (m : Z) :
  (1 ≤ m ≤ 12)%Z → bangladesh_climate !! m = Some (base_climate m).
Proof.
  intros Hm.
  assert (m = 1 ∨ m = 2 ∨ m = 3 ∨ m = 4 ∨ m = 5 ∨ m = 6 ∨ m = 7 ∨ m = 8
          ∨ m = 9 ∨ m = 10 ∨ m = 11 ∨ m = 12)%Z as Hcases by lia.
  repeat (destruct Hcases as [-> | Hcases]; [reflexivity|]).
  by subst m.
Qed.

Lemma month_names_lookup (m : Z) :
  (1 ≤ m ≤ 12)%Z →
  py_index month_names (m - 1) = Some (default ""%string (month_names !! Z.to_nat (m - 1))).
Proof.
  intros Hm. unfold py_index.
  destruct (Z.ltb_spec (m - 1) 0); [lia|].
  destruct (lookup_lt_is_Some_2 month_names (Z.to_nat (m - 1))) as [name ->]; [|done].
  simpl. lia.
Qed.

Lemma month_label_closed (s i : Z) : month_label s i = Some (label_at s i).
Proof.
  unfold month_label, label_at.
  by rewrite month_names_lookup by apply month_num_bounds.
Qed.

(** One iteration of the climate loop: whatever state the generator was
    left in, it is reseeded before the two draws. *)
Lemma climate_step_closed (s : Z) (temp_mult rain_mult : Q)
    (c : climate) (r : rng_state R) (i : Z) :
  climate_step R s temp_mult rain_mult (c, r) i =
    Some ({| months := months c ++ [label_at s i];
             temperatures := temperatures c ++ [temperature_at R s temp_mult i];
             rainfalls := rainfalls c ++ [rainfall_at R s rain_mult i] |},
          rng_after R i).
Proof.
  unfold climate_step. rewrite month_label_closed. cbn [mbind option_bind].
  rewrite bangladesh_climate_lookup by apply month_num_bounds. cbn [mbind option_bind].
  unfold temperature_at, rainfall_at, rng_after.
  destruct (base_climate (month_num s i)) as [base_temp base_rain].
  destruct (random_normal R 1.0 0.05 (random_seed R (42 + i))) as [n1 r1].
  simpl. by destruct (random_normal R 1.0 0.1 r1) as [n2 r2].
Qed.

Lemma climate_at_succ (s : Z) (temp_mult rain_mult : Q) (n : nat) :
  climate_at R s temp_mult rain_mult (Z.of_nat (S n)) =
    let c := climate_at R s temp_mult rain_mult (Z.of_nat n) in
    {| months := months c ++ [label_at s (Z.of_nat n)];
       temperatures := temperatures c ++ [temperature_at R s temp_mult (Z.of_nat n)];
       rainfalls := rainfalls c ++ [rainfall_at R s rain_mult (Z.of_nat n)] |}.
Proof. unfold climate_at. by rewrite range_succ, !fmap_app. Qed.

(** The climate loop always completes, with the closed-form lists. *)
Lemma generate_climate_closed (r0 : rng_state R) (forecast_months s : Z)
    (temp_mult rain_mult : Q) :
  ∃ r, generate_climate R r0 forecast_months s temp_mult rain_mult
       = Some (climate_at R s temp_mult rain_mult forecast_months, r).
Proof.
  unfold generate_climate, climate_at. rewrite (range_to_nat forecast_months).
  fold (climate_at R s temp_mult rain_mult (Z.of_nat (Z.to_nat forecast_months))).
  induction (Z.to_nat forecast_months) as [|n [r IH]].
  - by exists r0.
  - exists (rng_after R (Z.of_nat n)).
    rewrite range_succ. erewrite for_each_snoc by exact IH.
    by rewrite climate_step_closed, climate_at_succ.
Qed.

Lemma length_temperatures (s : Z) (temp_mult rain_mult : Q) (n : Z) :
  length (temperatures (climate_at R s temp_mult rain_mult n)) = Z.to_nat n.
Proof. simpl. by rewrite length_fmap, length_range. Qed.

Lemma length_rainfalls (s : Z) (temp_mult rain_mult : Q) (n : Z) :
  length (rainfalls (climate_at R s temp_mult rain_mult n)) = Z.to_nat n.
Proof. simpl. by rewrite length_fmap, length_range. Qed.

Lemma zip_climate_at (s : Z) (temp_mult rain_mult : Q) (n : Z) :
  zip (temperatures (climate_at R s temp_mult rain_mult n))
      (rainfalls (climate_at R s temp_mult rain_mult n))
  = forward_sequence R s temp_mult rain_mult n.
Proof.
  simpl. unfold forward_sequence.
  by rewrite zip_with_fmap_l, zip_with_fmap_r, zip_with_diag.
Qed.

Lemma length_forward_sequence (s : Z) (temp_mult rain_mult : Q) (n : Z) :
  length (forward_sequence R s temp_mult rain_mult n) = Z.to_nat n.
Proof. unfold forward_sequence. by rewrite length_fmap, length_range. Qed.

(** The seed window. *)
Lemma historical_step_closed (s : Z) (h : list (Q * Q)) (i : Z) :
  historical_step s h i = Some (h ++ [historical_point s i]).
Proof.
  unfold historical_step, historical_point.
  rewrite bangladesh_climate_lookup.
  - cbn [mbind option_bind]. by destruct (base_climate _).
  - pose proof (Z.mod_pos_bound (s - i) 12).
    destruct (Z.eqb_spec ((s - i) `mod` 12) 0); lia.
Qed.

Lemma historical_months_closed (s : Z) : historical_months s = Some (seed_window s).
Proof.
  unfold historical_months, seed_window.
  assert (∀ idx h, for_each (historical_step s) idx h
                   = Some (h ++ (historical_point s <$> idx))) as Happ.
  { induction idx as [|i idx IH]; intros h; cbn [for_each fmap list_fmap].
    - by rewrite app_nil_r.
    - rewrite historical_step_closed. cbn [mbind option_bind]. rewrite IH.
      by rewrite <- app_assoc. }
  by rewrite Happ.
Qed.

Lemma length_seed_window (s : Z) : length (seed_window s) = 12%nat.
Proof. reflexivity. Qed.

End Generator.

(** ** The rolling forecast loop *)

Section Window.

Import TimeSeriesPredictor.

Implicit Types (hist forward : list (Q * Q)) (k : nat).

Lemma length_window_at hist forward k :
  length hist = 12%nat → (k ≤ length forward)%nat →
  length (window_at hist forward k) = 12%nat.
Proof.
  intros Hh Hk. unfold window_at.
  rewrite length_take, length_drop, length_app. lia.
Qed.

Lemma window_at_0 hist forward :
  length hist = 12%nat → window_at hist forward 0 = hist.
Proof. intros Hh. unfold window_at. simpl. by apply take_app_length'. Qed.

(** Sliding: the next window is the current one without its oldest row,
    followed by the [k]-th row of the forward sequence. *)
Lemma window_at_succ hist forward k point :
  length hist = 12%nat → forward !! k = Some point →
  window_at hist forward (S k) = tail (window_at hist forward k) ++ [point].
Proof.
  intros Hh Hp. unfold window_at.
  assert ((hist ++ forward) !! (k + 12)%nat = Some point) as Hl.
  { rewrite lookup_app_r by lia. rewrite <- Hp. f_equal. lia. }
  assert (length (tail (take 12 (drop k (hist ++ forward)))) = 11%nat) as Hlen.
  { rewrite length_tl, length_take, length_drop, length_app.
    apply lookup_lt_Some in Hp. lia. }
  apply list_eq. intros i.
  destruct (decide (i < 11)%nat) as [Hi | Hi].
  - rewrite lookup_app_l by lia.
    rewrite lookup_tail. rewrite !lookup_take_lt by lia.
    rewrite !lookup_drop. f_equal. lia.
  - rewrite lookup_app_r by lia. rewrite Hlen.
    destruct (decide (i = 11)%nat) as [-> | Hne].
    + rewrite lookup_take_lt by lia. rewrite lookup_drop.
      replace (11 - 11)%nat with 0%nat by lia. simpl.
      rewrite <- Hl. f_equal. lia.
    + rewrite lookup_take_ge by lia.
      destruct (i - 11)%nat as [|j] eqn:E; [lia | done].
Qed.

End Window.

Section Forecast.

Import TimeSeriesPredictor.
Local Open Scope Q_scope.

Variable M : lstm.
Variable base_power_mw : Q.

Lemma prediction_mwh_closed (window : list (Q * Q)) :
  length window = 12%nat →
  prediction_mwh M window = Some (reference_mwh M window).
Proof.
  intros Hw. unfold prediction_mwh, reshape_1_12_2, scaler_X_transform.
  rewrite length_fmap. by destruct (decide (length window = 12%nat)).
Qed.

Lemma state_at_succ (hist forward : list (Q * Q)) (k : nat) (point : Q * Q) :
  length hist = 12%nat → forward !! k = Some point →
  state_at M base_power_mw hist forward (S k) =
    let s := state_at M base_power_mw hist forward k in
    let scaled := scaled_prediction_at M base_power_mw hist forward k in
    {| current_sequence := tail (current_sequence s) ++ [point];
       predictions_mwh := predictions_mwh s ++ [scaled];
       confidence_lower := confidence_lower s ++ [scaled * 0.85];
       confidence_upper := confidence_upper s ++ [scaled * 1.15] |}.
Proof.
  intros Hh Hp. unfold state_at.
  rewrite (window_at_succ hist forward k point) by done.
  by rewrite seq_S, !fmap_app.
Qed.

(** The loop over the first [k] indices reaches the closed-form state:
    every reshape and every index succeeds. *)
Lemma forecast_loop_closed (temperatures rainfalls : list Q)
    (hist : list (Q * Q)) (k : nat) :
  length hist = 12%nat →
  (k ≤ length temperatures)%nat → (k ≤ length rainfalls)%nat →
  forecast_loop M base_power_mw temperatures rainfalls hist (range (Z.of_nat k))
  = Some (state_at M base_power_mw hist (zip temperatures rainfalls) k).
Proof.
  intros Hh. unfold forecast_loop.
  induction k as [|k IH]; intros Ht Hr.
  - simpl. unfold state_at. by rewrite window_at_0.
  - destruct (lookup_lt_is_Some_2 temperatures k) as [t Ht']; [lia|].
    destruct (lookup_lt_is_Some_2 rainfalls k) as [r Hr']; [lia|].
    assert (zip temperatures rainfalls !! k = Some (t, r)) as Hz.
    { rewrite lookup_zip_with, Ht', Hr'. done. }
    rewrite range_succ. erewrite for_each_snoc by (apply IH; lia).
    unfold forecast_step.
    rewrite prediction_mwh_closed.
    2:{ simpl. apply length_window_at; [done|].
        rewrite length_zip_with. lia. }
    simpl. rewrite !py_index_of_nat, Ht', Hr'. simpl.
    by rewrite (state_at_succ hist (zip temperatures rainfalls) k (t, r)).
Qed.

End Forecast.

Section Handler.

Import TimeSeriesPredictor.
Local Open Scope Q_scope.

Variable M : lstm.
Variable R : numpy_random.

(** The handler always completes on a start month and a scenario offered
    by the page, with the closed-form result. *)
Lemma generate_lstm_forecast_closed (r0 : rng_state R)
    (base_power_mw waterfall_mw geo_mw : Q) (forecast_months : Z)
    (start_month climate_scenario : string) (s : Z) (temp_mult rain_mult : Q) :
  month_map !! start_month = Some s →
  climate_adjustments !! climate_scenario = Some (temp_mult, rain_mult) →
  ∃ r,
    generate_lstm_forecast M R r0 base_power_mw waterfall_mw geo_mw
      forecast_months start_month climate_scenario
    = Some (store_predictions
              (climate_at R s temp_mult rain_mult forecast_months)
              (state_at M base_power_mw (seed_window s)
                 (forward_sequence R s temp_mult rain_mult forecast_months)
                 (Z.to_nat forecast_months))
              base_power_mw waterfall_mw geo_mw climate_scenario, r).
Proof.
  intros Hs Hc. unfold generate_lstm_forecast.
  rewrite Hs, Hc. cbn [mbind option_bind].
  destruct (generate_climate_closed R r0 forecast_months s temp_mult rain_mult)
    as [r ->].
  exists r. cbn [mbind option_bind].
  rewrite historical_months_closed. cbn [mbind option_bind].
  rewrite (range_to_nat forecast_months).
  rewrite forecast_loop_closed.
  - cbn [mbind option_bind]. by rewrite zip_climate_at.
  - apply length_seed_window.
  - rewrite length_temperatures. lia.
  - rewrite length_rainfalls. lia.
Qed.

End Handler.

(** ** Claims on the forecast *)

Section ForecastClaims.

Import TimeSeriesPredictor.
Local Open Scope Q_scope.

Lemma lookup_predictions_mwh (M : lstm) (base_power_mw : Q)
    (hist forward : list (Q * Q)) (n i : nat) :
  (i < n)%nat →
  predictions_mwh (state_at M base_power_mw hist forward n) !! i
  = Some (scaled_prediction_at M base_power_mw hist forward i).
Proof.
  intros Hi. simpl. by rewrite list_lookup_fmap, lookup_seq_lt.
Qed.

Lemma length_predictions_mwh (M : lstm) (base_power_mw : Q)
    (hist forward : list (Q * Q)) (n : nat) :
  length (predictions_mwh (state_at M base_power_mw hist forward n)) = n.
Proof. simpl. by rewrite length_fmap, length_seq. Qed.

Lemma scale_factor_zero (base_power_mw : Q) :
  base_power_mw == 0 → scale_factor base_power_mw == 0.
Proof. intros H. unfold scale_factor. rewrite H. reflexivity. Qed.

(** C2.  With a capacity of 0 MW the handler still completes; the series
    has one entry per forecast month, every predicted energy is 0, and
    both source ratios take the fallback value 0.5 (no division by the
    zero total), so that each per-source series is half the total. *)
Theorem zero_capacity_forecast (M : lstm) (R : numpy_random) (r0 : rng_state R)
    (base_power_mw waterfall_mw geo_mw : Q) (forecast_months : Z)
    (start_month climate_scenario : string) :
  base_power_mw == 0 →
  is_Some (month_map !! start_month) →
  is_Some (climate_adjustments !! climate_scenario) →
  ∃ p r,
    generate_lstm_forecast M R r0 base_power_mw waterfall_mw geo_mw
      forecast_months start_month climate_scenario = Some (p, r)
    ∧ length (total_mwh p) = Z.to_nat forecast_months
    ∧ Forall (λ e, e == 0) (total_mwh p)
    ∧ waterfall_ratio waterfall_mw base_power_mw = 0.5
    ∧ geo_ratio geo_mw base_power_mw = 0.5
    ∧ waterfall_mwh p = (λ e, e * 0.5) <$> total_mwh p
    ∧ geo_mwh p = (λ e, e * 0.5) <$> total_mwh p.
Proof.
  intros Hb [s Hs] [[temp_mult rain_mult] Hc].
  destruct (generate_lstm_forecast_closed M R r0 base_power_mw waterfall_mw geo_mw
              forecast_months start_month climate_scenario s temp_mult rain_mult Hs Hc)
    as [r Hgen].
  eexists _, r. split; [exact Hgen|].
  assert (waterfall_ratio waterfall_mw base_power_mw = 0.5) as Hw.
  { unfold waterfall_ratio. by rewrite Qgtb_zero_r. }
  assert (geo_ratio geo_mw base_power_mw = 0.5) as Hg.
  { unfold geo_ratio. by rewrite Qgtb_zero_r. }
  unfold store_predictions. cbn [total_mwh waterfall_mwh geo_mwh].
  rewrite Hw, Hg.
  split; [apply length_predictions_mwh|].
  split; [|done].
  cbn [predictions_mwh state_at]. apply Forall_fmap, Forall_forall.
  intros k _. simpl. unfold scaled_prediction_at.
  rewrite scale_factor_zero by done. ring.
Qed.

Lemma zero_capacity_forecast_witness :
  (0 == 0
   ∧ is_Some (month_map !! "November"%string)
   ∧ is_Some (climate_adjustments !! "Normal"%string))
  ∧ ∃ p r,
      generate_lstm_forecast Demo.demo_lstm Demo.demo_random 7%Z 0 0 0
        12 "November" "Normal" = Some (p, r)
      ∧ Forall (λ e, e == 0) (total_mwh p).
Proof.
  assert (is_Some (month_map !! "November"%string)) as H1 by (by eexists).
  assert (is_Some (climate_adjustments !! "Normal"%string)) as H2 by (by eexists).
  split; [done|].
  destruct (zero_capacity_forecast Demo.demo_lstm Demo.demo_random 7%Z 0 0 0
              12 "November" "Normal" (Qeq_refl 0) H1 H2)
    as (p & r & Hgen & _ & Hzero & _).
  exists p, r. split; [exact Hgen | exact Hzero].
Defined.

(** C3.  At every forecast step [i] the stored energy is the model's
    reference output on the current window times
    [(capacity * 730) / 3500], and the stored power is that energy divided
    by 730. *)
Theorem capacity_rescaling (M : lstm) (R : numpy_random) (r0 : rng_state R)
    (base_power_mw waterfall_mw geo_mw : Q) (forecast_months : Z)
    (start_month climate_scenario : string)
    (s : Z) (temp_mult rain_mult : Q) (i : nat) :
  month_map !! start_month = Some s →
  climate_adjustments !! climate_scenario = Some (temp_mult, rain_mult) →
  (i < Z.to_nat forecast_months)%nat →
  ∃ p r,
    generate_lstm_forecast M R r0 base_power_mw waterfall_mw geo_mw
      forecast_months start_month climate_scenario = Some (p, r)
    ∧ let predicted_mwh_reference :=
        reference_mwh M
          (window_at (seed_window s)
             (forward_sequence R s temp_mult rain_mult forecast_months) i) in
      let scaled_prediction :=
        predicted_mwh_reference * (base_power_mw * 730 / 3500) in
      total_mwh p !! i = Some scaled_prediction
      ∧ total_mw p !! i = Some (scaled_prediction / 730)
      ∧ scaled_prediction == predicted_mwh_reference * (base_power_mw * 730) / 3500.
Proof.
  intros Hs Hc Hi.
  destruct (generate_lstm_forecast_closed M R r0 base_power_mw waterfall_mw geo_mw
              forecast_months start_month climate_scenario s temp_mult rain_mult Hs Hc)
    as [r Hgen].
  eexists _, r. split; [exact Hgen|].
  unfold store_predictions. cbn [total_mwh total_mw].
  split; [by rewrite lookup_predictions_mwh|].
  split; [|field].
  rewrite list_lookup_fmap, lookup_predictions_mwh by done. done.
Qed.

Lemma capacity_rescaling_witness :
  (month_map !! "November"%string = Some 11%Z
   ∧ climate_adjustments !! "Hotter"%string = Some (1.1, 0.9)
   ∧ (1 < Z.to_nat 3)%nat)
  ∧ ∃ p r,
      generate_lstm_forecast Demo.demo_lstm Demo.demo_random 7%Z 2 1 1
        3 "November" "Hotter" = Some (p, r)
      ∧ total_mwh p !! 1%nat
        = Some (reference_mwh Demo.demo_lstm
                  (window_at (seed_window 11)
                     (forward_sequence Demo.demo_random 11 1.1 0.9 3) 1)
                * (2 * 730 / 3500)).
Proof.
  assert (1 < Z.to_nat 3)%nat as H3 by (simpl; lia).
  split; [done|].
  destruct (capacity_rescaling Demo.demo_lstm Demo.demo_random 7%Z 2 1 1
              3 "November" "Hotter" 11 1.1 0.9 1%nat eq_refl eq_refl H3)
    as (p & r & Hgen & Hmwh & _).
  exists p, r. split; [exact Hgen | exact Hmwh].
Defined.

(** C7.  In every forecast series the confidence bounds are, step by
    step, the predicted energy times 0.85 and times 1.15. *)
Theorem confidence_band (M : lstm) (R : numpy_random) (r0 : rng_state R)
    (base_power_mw waterfall_mw geo_mw : Q) (forecast_months : Z)
    (start_month climate_scenario : string) :
  is_Some (month_map !! start_month) →
  is_Some (climate_adjustments !! climate_scenario) →
  ∃ p r,
    generate_lstm_forecast M R r0 base_power_mw waterfall_mw geo_mw
      forecast_months start_month climate_scenario = Some (p, r)
    ∧ length (total_mwh p) = Z.to_nat forecast_months
    ∧ p_confidence_lower p = (λ e, e * 0.85) <$> total_mwh p
    ∧ p_confidence_upper p = (λ e, e * 1.15) <$> total_mwh p
    ∧ ∀ (i : nat) (predicted : Q), total_mwh p !! i = Some predicted →
        ∃ lower upper,
          p_confidence_lower p !! i = Some lower
          ∧ p_confidence_upper p !! i = Some upper
          ∧ lower == 0.85 * predicted
          ∧ upper == 1.15 * predicted.
Proof.
  intros [s Hs] [[temp_mult rain_mult] Hc].
  destruct (generate_lstm_forecast_closed M R r0 base_power_mw waterfall_mw geo_mw
              forecast_months start_month climate_scenario s temp_mult rain_mult Hs Hc)
    as [r Hgen].
  eexists _, r. split; [exact Hgen|].
  unfold store_predictions. cbn [total_mwh p_confidence_lower p_confidence_upper].
  split; [apply length_predictions_mwh|].
  cbn [state_at predictions_mwh confidence_lower confidence_upper].
  split; [done|]. split; [done|].
  intros i predicted Hp.
  exists (predicted * 0.85), (predicted * 1.15).
  rewrite !list_lookup_fmap, Hp in *. simpl.
  repeat split; ring.
Qed.

Lemma confidence_band_witness :
  (is_Some (month_map !! "March"%string)
   ∧ is_Some (climate_adjustments !! "Drier (Less Rain)"%string))
  ∧ ∃ p r,
      generate_lstm_forecast Demo.demo_lstm Demo.demo_random 7%Z 2 1 1
        6 "March" "Drier (Less Rain)" = Some (p, r)
      ∧ p_confidence_lower p = (λ e, e * 0.85) <$> total_mwh p.
Proof.
  assert (is_Some (month_map !! "March"%string)) as H1 by (by eexists).
  assert (is_Some (climate_adjustments !! "Drier (Less Rain)"%string)) as H2
    by (by eexists).
  split; [done|].
  destruct (confidence_band Demo.demo_lstm Demo.demo_random 7%Z 2 1 1
              6 "March" "Drier (Less Rain)" H1 H2)
    as (p & r & Hgen & _ & Hlow & _).
  exists p, r. split; [exact Hgen | exact Hlow].
Defined.

(** C4.  The rolling window is a ring buffer of twelve months.  At every
    step [k] of the forecast loop the window has twelve rows before and
    after the step, and the window after the step is the window before it
    without its oldest row, followed by row [k] of the forward climate
    sequence.  The windows are those of the seed and forward sequences
    alone: any other model and capacity give the same window. *)
Theorem rolling_window (M : lstm) (R : numpy_random) (r0 : rng_state R)
    (base_power_mw : Q) (forecast_months s : Z) (temp_mult rain_mult : Q)
    (k : nat) :
  (k < Z.to_nat forecast_months)%nat →
  ∃ c r h before after point,
    generate_climate R r0 forecast_months s temp_mult rain_mult = Some (c, r)
    ∧ historical_months s = Some h
    ∧ forecast_loop M base_power_mw (temperatures c) (rainfalls c) h
        (range (Z.of_nat k)) = Some before
    ∧ forecast_step M base_power_mw (temperatures c) (rainfalls c) before
        (Z.of_nat k) = Some after
    ∧ forecast_loop M base_power_mw (temperatures c) (rainfalls c) h
        (range (Z.of_nat (S k))) = Some after
    ∧ zip (temperatures c) (rainfalls c) !! k = Some point
    ∧ length (current_sequence before) = 12%nat
    ∧ length (current_sequence after) = 12%nat
    ∧ current_sequence after = tail (current_sequence before) ++ [point]
    ∧ current_sequence after
      = take 12 (drop (S k) (h ++ zip (temperatures c) (rainfalls c)))
    ∧ ∀ (M' : lstm) (base_power_mw' : Q), ∃ after',
        forecast_loop M' base_power_mw' (temperatures c) (rainfalls c) h
          (range (Z.of_nat (S k))) = Some after'
        ∧ current_sequence after' = current_sequence after.
Proof.
  intros Hk.
  destruct (generate_climate_closed R r0 forecast_months s temp_mult rain_mult)
    as [r Hgen].
  set (c := climate_at R s temp_mult rain_mult forecast_months) in *.
  assert (length (temperatures c) = Z.to_nat forecast_months) as Ht
    by apply length_temperatures.
  assert (length (rainfalls c) = Z.to_nat forecast_months) as Hr
    by apply length_rainfalls.
  set (forward := zip (temperatures c) (rainfalls c)).
  assert (length forward = Z.to_nat forecast_months) as Hf.
  { unfold forward. rewrite length_zip_with. lia. }
  destruct (lookup_lt_is_Some_2 forward k) as [point Hp]; [lia|].
  pose proof (length_seed_window s) as Hh.
  assert (∀ M' b', forecast_loop M' b' (temperatures c) (rainfalls c)
                     (seed_window s) (range (Z.of_nat (S k)))
                   = Some (state_at M' b' (seed_window s) forward (S k))) as Hloop.
  { intros M' b'. apply forecast_loop_closed; [done | lia | lia]. }
  exists c, r, (seed_window s),
    (state_at M base_power_mw (seed_window s) forward k),
    (state_at M base_power_mw (seed_window s) forward (S k)), point.
  split; [exact Hgen|].
  split; [apply historical_months_closed|].
  split; [apply forecast_loop_closed; [done | lia | lia]|].
  split.
  { rewrite <- Hloop. rewrite range_succ. symmetry.
    apply for_each_snoc. apply forecast_loop_closed; [done | lia | lia]. }
  split; [apply Hloop|].
  split; [exact Hp|].
  cbn [current_sequence state_at].
  split; [apply length_window_at; [done | lia]|].
  split; [apply length_window_at; [done | lia]|].
  split; [by apply window_at_succ|].
  split; [reflexivity|].
  intros M' b'. eexists. split; [apply Hloop | reflexivity].
Qed.

Lemma rolling_window_witness :
  (1 < Z.to_nat 3)%nat
  ∧ ∃ c r h before after point,
      generate_climate Demo.demo_random 7%Z 3 11 1.1 0.9 = Some (c, r)
      ∧ historical_months 11 = Some h
      ∧ forecast_loop Demo.demo_lstm 2 (temperatures c) (rainfalls c) h
          (range (Z.of_nat 1)) = Some before
      ∧ forecast_step Demo.demo_lstm 2 (temperatures c) (rainfalls c) before
          (Z.of_nat 1) = Some after
      ∧ zip (temperatures c) (rainfalls c) !! 1%nat = Some point
      ∧ length (current_sequence after) = 12%nat
      ∧ current_sequence after = tail (current_sequence before) ++ [point].
Proof.
  assert (1 < Z.to_nat 3)%nat as H3 by (simpl; lia).
  split; [exact H3|].
  destruct (rolling_window Demo.demo_lstm Demo.demo_random 7%Z 2 3 11 1.1 0.9 1%nat H3)
    as (c & r & h & before & after & point
        & Hgen & Hh & Hb & Ha & _ & Hp & _ & Hlen & Hslide & _).
  exists c, r, h, before, after, point.
  repeat (split; [eassumption|]). exact Hslide.
Defined.

(** C8.  The forecast is a function of its inputs alone: whatever state
    NumPy's generator is in when the handler starts, the stored
    predictions are the same, because every step reseeds the generator
    with [42 + i] before drawing its jitter. *)
Theorem forecast_deterministic (M : lstm) (R : numpy_random)
    (r1 r2 : rng_state R)
    (base_power_mw waterfall_mw geo_mw : Q) (forecast_months : Z)
    (start_month climate_scenario : string) :
  fst <$> generate_lstm_forecast M R r1 base_power_mw waterfall_mw geo_mw
            forecast_months start_month climate_scenario
  = fst <$> generate_lstm_forecast M R r2 base_power_mw waterfall_mw geo_mw
              forecast_months start_month climate_scenario.
Proof.
  destruct (month_map !! start_month) as [s|] eqn:Hs.
  - destruct (climate_adjustments !! climate_scenario)
      as [[temp_mult rain_mult]|] eqn:Hc.
    + destruct (generate_lstm_forecast_closed M R r1 base_power_mw waterfall_mw
                  geo_mw forecast_months start_month climate_scenario
                  s temp_mult rain_mult Hs Hc) as [r1' ->].
      destruct (generate_lstm_forecast_closed M R r2 base_power_mw waterfall_mw
                  geo_mw forecast_months start_month climate_scenario
                  s temp_mult rain_mult Hs Hc) as [r2' ->].
      reflexivity.
    + unfold generate_lstm_forecast. rewrite Hs, Hc. reflexivity.
  - unfold generate_lstm_forecast. rewrite Hs. reflexivity.
Qed.

Lemma year_offset_succ (s i : Z) :
  year_offset s (i + 1)
  = if (month_num s i =? 12)%Z then (year_offset s i + 1)%Z else year_offset s i.
Proof.
  unfold year_offset, month_num.
  replace (s + (i + 1) - 1)%Z with ((s + i - 1) + 1)%Z by lia.
  generalize (s + i - 1)%Z. intros x.
  pose proof (Z.div_mod x 12). pose proof (Z.mod_pos_bound x 12).
  pose proof (Z.div_mod (x + 1) 12). pose proof (Z.mod_pos_bound (x + 1) 12).
  destruct (Z.eqb_spec (x `mod` 12 + 1) 12); lia.
Qed.

(** C9.  The label of step [i] names calendar month [start + i], with a
    year suffix that starts at [Y1] and goes up by one exactly when the
    sequence passes from December to January.  A horizon of 15 months
    from November gives [Nov Y1], [Dec Y1], [Jan Y2], ..., [Dec Y2],
    [Jan Y3]. *)
Theorem month_labels_wrap (M : lstm) (R : numpy_random) (r0 : rng_state R)
    (base_power_mw waterfall_mw geo_mw : Q) (forecast_months : Z)
    (start_month climate_scenario : string) (s : Z) :
  month_map !! start_month = Some s →
  is_Some (climate_adjustments !! climate_scenario) →
  ∃ p r,
    generate_lstm_forecast M R r0 base_power_mw waterfall_mw geo_mw
      forecast_months start_month climate_scenario = Some (p, r)
    ∧ length (p_months p) = Z.to_nat forecast_months
    ∧ (∀ i : nat, (i < Z.to_nat forecast_months)%nat →
         ∃ name,
           month_names !! Z.to_nat ((s + Z.of_nat i - 1) `mod` 12) = Some name
           ∧ p_months p !! i
             = Some (name +:+ " Y" +:+ str ((s + Z.of_nat i - 1) `div` 12 + 1)))
    ∧ (∀ i : Z,
         year_offset s (i + 1)
         = if (month_num s i =? 12)%Z then (year_offset s i + 1)%Z
           else year_offset s i)
    ∧ (start_month = "November"%string → forecast_months = 15%Z →
         p_months p
         = ["Nov Y1"; "Dec Y1"; "Jan Y2"; "Feb Y2"; "Mar Y2"; "Apr Y2";
            "May Y2"; "Jun Y2"; "Jul Y2"; "Aug Y2"; "Sep Y2"; "Oct Y2";
            "Nov Y2"; "Dec Y2"; "Jan Y3"]%string).
Proof.
  intros Hs [[temp_mult rain_mult] Hc].
  destruct (generate_lstm_forecast_closed M R r0 base_power_mw waterfall_mw geo_mw
              forecast_months start_month climate_scenario s temp_mult rain_mult Hs Hc)
    as [r Hgen].
  eexists _, r. split; [exact Hgen|].
  unfold store_predictions. cbn [p_months]. cbn [months climate_at].
  split; [by rewrite length_fmap, length_range|].
  split; [|split; [apply year_offset_succ|]].
  - intros i Hi.
    destruct (lookup_lt_is_Some_2 month_names
                (Z.to_nat ((s + Z.of_nat i - 1) `mod` 12))) as [name Hname].
    { pose proof (Z.mod_pos_bound (s + Z.of_nat i - 1) 12).
      change (length month_names) with 12%nat. lia. }
    exists name. split; [exact Hname|].
    rewrite list_lookup_fmap, lookup_range by done.
    cbn [fmap option_fmap option_map]. unfold label_at, month_num, year_offset.
    replace ((s + Z.of_nat i - 1) `mod` 12 + 1 - 1)%Z
      with ((s + Z.of_nat i - 1) `mod` 12)%Z by lia.
    by rewrite Hname.
  - intros -> ->.
    assert (s = 11%Z) as -> by (vm_compute in Hs; congruence).
    reflexivity.
Qed.

Lemma month_labels_wrap_witness :
  (month_map !! "November"%string = Some 11%Z
   ∧ is_Some (climate_adjustments !! "Normal"%string))
  ∧ ∃ p r,
      generate_lstm_forecast Demo.demo_lstm Demo.demo_random 7%Z 2 1 1
        15 "November" "Normal" = Some (p, r)
      ∧ p_months p
        = ["Nov Y1"; "Dec Y1"; "Jan Y2"; "Feb Y2"; "Mar Y2"; "Apr Y2";
           "May Y2"; "Jun Y2"; "Jul Y2"; "Aug Y2"; "Sep Y2"; "Oct Y2";
           "Nov Y2"; "Dec Y2"; "Jan Y3"]%string.
Proof.
  assert (is_Some (climate_adjustments !! "Normal"%string)) as H2 by (by eexists).
  split; [split; [reflexivity | exact H2]|].
  destruct (month_labels_wrap Demo.demo_lstm Demo.demo_random 7%Z 2 1 1
              15 "November" "Normal" 11 eq_refl H2)
    as (p & r & Hgen & _ & _ & _ & Hlabels).
  exists p, r. split; [exact Hgen | exact (Hlabels eq_refl eq_refl)].
Defined.

End ForecastClaims.


(** ** Cross-check of the scenarios in binary64 *)

Section Binary64Check.

Import Binary64.
Local Open Scope float_scope.
#[local] Set Warnings "-inexact-float".

(** Waterfall scenario: 4.4145 MW up to rounding. *)
Lemma binary64_waterfall_scenario :
  within 1e-12 scenario_waterfall.1 4.4145 = true
  ∧ within 0.0005 scenario_waterfall.1 4.415 = true.
Proof. split; vm_compute; reflexivity. Qed.

(** Geothermal scenario: 36575 kW, 5.48625 MW and 40850.6175 MWh up to
    rounding; the annual energy is not within 17 MWh of 40868. *)
Lemma binary64_geothermal_scenario :
  scenario_geothermal.1.1 = Some 36575
  ∧ within 1e-12 scenario_geothermal.1.2 5.48625 = true
  ∧ within 1e-9 scenario_geothermal.2 40850.6175 = true
  ∧ within 17 scenario_geothermal.2 40868 = false.
Proof. repeat split; vm_compute; reflexivity. Qed.

(** At exactly 50 degrees the strict guard gives no geothermal power. *)
Lemma binary64_geothermal_at_50 : boundary_geothermal = (None, 0, 0).
Proof. vm_compute. reflexivity. Qed.

End Binary64Check.

(** * Further properties of the pages *)

(** ** Truncation *)

Section Truncation.

Local Open Scope Q_scope.

Lemma int_nonneg (x : Q) : 0 <= x → int x = Qfloor x.
Proof.
  destruct x as [n d]. unfold Qle, int. simpl. intros Hn.
  apply Z.quot_div_nonneg; lia.
Qed.

Lemma int_nonpos (x : Q) : x <= 0 → int x = (- Qfloor (- x))%Z.
Proof.
  destruct x as [n d]. unfold Qle, int. simpl. intros Hn.
  rewrite <- (Z.quot_div_nonneg (- n) (Z.pos d)) by lia.
  rewrite Z.quot_opp_l by lia. lia.
Qed.

(** [int] depends on the value of its argument only. *)
Lemma int_comp (x y : Q) : x == y → int x = int y.
Proof.
  intros Hxy. destruct (Qlt_le_dec x 0) as [Hx | Hx].
  - rewrite (int_nonpos x), (int_nonpos y); [| rewrite <- Hxy | ]; try lra.
    by rewrite Hxy.
  - rewrite (int_nonneg x), (int_nonneg y); [| rewrite <- Hxy | ]; try lra.
    by rewrite Hxy.
Qed.



End Truncation.

(** ** The estimator: bounds, edge cases and the batch path *)

Section EstimatorExtras.

Import GeographicCalculator.
Local Open Scope Q_scope.

Implicit Types (waterfall_height waterfall_flow geo_temp depth : Q).
Implicit Types (turbine_efficiency geo_efficiency capacity_factor : Q).

(** The handler's result, field by field, from the two branch results. *)
Lemma calculate_energy_potential_fields waterfall_height waterfall_flow geo_temp depth
    turbine_efficiency geo_efficiency capacity_factor :
  let W := waterfall_calculations waterfall_height waterfall_flow turbine_efficiency in
  let G := geothermal_calculations geo_temp depth geo_efficiency capacity_factor in
  let E_waste := (W.1.1.2 + G.1.1.1.1.2) * 0.05 in
  let E_total := W.1.1.2 + G.1.1.1.1.2 + E_waste in
  calculate_energy_potential waterfall_height waterfall_flow geo_temp depth
    turbine_efficiency geo_efficiency capacity_factor
  = {| P_waterfall_MW := W.1.1.1;
       E_waterfall_year_MWh := W.1.1.2;
       households_waterfall := W.1.2;
       has_waterfall := W.2;
       thermal_power_kW := G.1.1.1.1.1.1;
       P_geo_MW := G.1.1.1.1.1.2;
       E_geo_year_MWh := G.1.1.1.1.2;
       households_geo := G.1.1.1.2;
       pipe_material := G.1.1.2;
       relative_cost := G.1.2;
       has_geothermal := G.2;
       E_waste_recovered_MWh := E_waste;
       households_waste := int (E_waste * 1000 / 7.2);
       P_total_MW := W.1.1.1 + G.1.1.1.1.1.2;
       E_total_year_MWh := E_total;
       households_total := int (E_total * 1000 / 7.2) |}.
Proof.
  unfold calculate_energy_potential.
  destruct (waterfall_calculations _ _ _) as [[[? ?] ?] ?].
  by destruct (geothermal_calculations _ _ _ _) as [[[[[[? ?] ?] ?] ?] ?] ?].
Qed.

(** The two cases of the waterfall branch. *)
Lemma waterfall_cases waterfall_height waterfall_flow turbine_efficiency :
  (0 < waterfall_height ∧ 0 < waterfall_flow
   ∧ waterfall_calculations waterfall_height waterfall_flow turbine_efficiency =
       let P := rho * g * waterfall_flow * waterfall_height * turbine_efficiency / 1_000_000 in
       (P, P * 24 * 365, int (P * 24 * 365 * 1000 / 7.2), true))
  ∨ ((waterfall_height <= 0 ∨ waterfall_flow <= 0)
     ∧ waterfall_calculations waterfall_height waterfall_flow turbine_efficiency
       = (0, 0, 0%Z, false)).
Proof.
  unfold waterfall_calculations.
  destruct (Qgtb waterfall_height 0) eqn:Hh; [destruct (Qgtb waterfall_flow 0) eqn:Hq|].
  - left. apply Qgtb_true in Hh, Hq. done.
  - right. apply Qgtb_false in Hq. auto.
  - right. apply Qgtb_false in Hh. auto.
Qed.

(** The two cases of the geothermal branch. *)
Lemma geothermal_cases geo_temp depth geo_efficiency capacity_factor :
  (50 < geo_temp ∧ 0 < depth
   ∧ ∃ material cost,
       (cost = 1.0 ∧ geo_temp < 300
        ∨ cost = 2.5 ∧ 300 <= geo_temp ∧ geo_temp < 600
        ∨ cost = 5.0 ∧ 600 <= geo_temp)
       ∧ geothermal_calculations geo_temp depth geo_efficiency capacity_factor =
           let thermal := 50.0 * specific_heat * (geo_temp - surface_temp) in
           let P := thermal * geo_efficiency / 1000 in
           let E := P * 24 * 365 * capacity_factor in
           (Some thermal, P, E, int (E * 1000 / 7.2), material, cost, true))
  ∨ ((geo_temp <= 50 ∨ depth <= 0)
     ∧ geothermal_calculations geo_temp depth geo_efficiency capacity_factor
       = (None, 0, 0, 0%Z, "N/A"%string, 0, false)).
Proof.
  unfold geothermal_calculations.
  destruct (Qgtb geo_temp 50) eqn:HT; [destruct (Qgtb depth 0) eqn:Hd|].
  - left. apply Qgtb_true in HT, Hd. split; [done|]. split; [done|]. simpl.
    destruct (Qltb geo_temp 300) eqn:H3; [|destruct (Qltb geo_temp 600) eqn:H6].
    + apply Qltb_true in H3. eexists _, _. split; [|reflexivity]. auto.
    + apply Qltb_true in H6. apply negb_false_iff, Qle_bool_iff in H3.
      eexists _, _. split; [|reflexivity]. auto.
    + apply negb_false_iff, Qle_bool_iff in H6.
      eexists _, _. split; [|reflexivity]. auto.
  - right. apply Qgtb_false in Hd. auto.
  - right. apply Qgtb_false in HT. auto.
Qed.

(** Waterfall power over non-negative inputs: never negative, and
    non-decreasing in height, flow and efficiency jointly (the zero
    branch included). *)
Theorem waterfall_power_monotone
    (h1 q1 eta1 h2 q2 eta2 geo_temp depth geo_efficiency capacity_factor : Q) :
  0 <= h1 → h1 <= h2 → 0 <= q1 → q1 <= q2 → 0 <= eta1 → eta1 <= eta2 →
  0 <= P_waterfall_MW (calculate_energy_potential h1 q1 geo_temp depth
                         eta1 geo_efficiency capacity_factor)
  ∧ P_waterfall_MW (calculate_energy_potential h1 q1 geo_temp depth
                      eta1 geo_efficiency capacity_factor)
    <= P_waterfall_MW (calculate_energy_potential h2 q2 geo_temp depth
                         eta2 geo_efficiency capacity_factor).
Proof.
  intros Hh1 Hh Hq1 Hq He1 He.
  rewrite !P_waterfall_MW_calculate.
  assert (∀ h q eta, 0 < h → 0 < q → 0 <= eta →
            0 <= rho * g * q * h * eta / 1_000_000) as Hpos.
  { intros h q eta ? ? ?. unfold rho, g. apply Qle_shift_div_l; [done|].
    assert (0 <= q * h) by nra.
    assert (0 <= q * h * eta) by nra.
    lra. }
  destruct (waterfall_cases h1 q1 eta1) as [(Hh1' & Hq1' & ->) | (_ & ->)];
    destruct (waterfall_cases h2 q2 eta2) as [(Hh2' & Hq2' & ->) | (Hz & ->)];
    simpl.
  - split; [by apply Hpos|]. unfold rho, g.
    apply Qmult_le_compat_r; [|done].
    assert (q1 * h1 <= q2 * h2) by nra.
    assert (0 <= q1 * h1) by nra.
    assert (q1 * h1 * eta1 <= q2 * h2 * eta2) by nra.
    lra.
  - destruct Hz; lra.
  - split; [done|]. apply Hpos; [done | done | lra].
  - done.
Qed.

Lemma waterfall_power_monotone_witness :
  (0 <= 40 ∧ 40 <= 50 ∧ 0 <= 8 ∧ 8 <= 10 ∧ 0 <= 0.8 ∧ 0.8 <= 0.9)
  ∧ P_waterfall_MW (calculate_energy_potential 40 8 200 3 0.8 0.15 0.85)
    <= P_waterfall_MW (calculate_energy_potential 50 10 200 3 0.9 0.15 0.85).
Proof.
  assert (0 <= 40 ∧ 40 <= 50 ∧ 0 <= 8 ∧ 8 <= 10 ∧ 0 <= 0.8 ∧ 0.8 <= 0.9) as H
    by (repeat split; by vm_compute).
  split; [exact H|].
  destruct H as (H1 & H2 & H3 & H4 & H5 & H6).
  exact (proj2 (waterfall_power_monotone 40 8 0.8 50 10 0.9 200 3 0.15 0.85
                  H1 H2 H3 H4 H5 H6)).
Defined.

(** Energies of the two branches are never negative when the
    efficiencies and the capacity factor are not. *)
Lemma waterfall_energy_nonneg waterfall_height waterfall_flow turbine_efficiency :
  0 <= turbine_efficiency →
  0 <= (waterfall_calculations waterfall_height waterfall_flow turbine_efficiency).1.1.1
  ∧ 0 <= (waterfall_calculations waterfall_height waterfall_flow turbine_efficiency).1.1.2.
Proof.
  intros He.
  destruct (waterfall_cases waterfall_height waterfall_flow turbine_efficiency)
    as [(Hh & Hq & ->) | (_ & ->)]; simpl; [|done].
  assert (0 <= rho * g * waterfall_flow * waterfall_height * turbine_efficiency / 1_000_000)
    as HP.
  { unfold rho, g. apply Qle_shift_div_l; [done|].
    assert (0 <= waterfall_flow * waterfall_height) by nra.
    assert (0 <= waterfall_flow * waterfall_height * turbine_efficiency) by nra.
    lra. }
  split; [done | lra].
Qed.




(** No viable source.  When the waterfall guard fails (height or flow not
    positive) and the geothermal guard fails (temperature at most 50 or
    depth not positive), nothing is raised: both flags are off, the pipe
    material is "N/A", and every power, energy and household figure is
    zero. *)
Theorem no_viable_source_is_zero
    (waterfall_height waterfall_flow geo_temp depth
     turbine_efficiency geo_efficiency capacity_factor : Q) :
  waterfall_height <= 0 ∨ waterfall_flow <= 0 →
  geo_temp <= 50 ∨ depth <= 0 →
  let r := calculate_energy_potential waterfall_height waterfall_flow geo_temp depth
             turbine_efficiency geo_efficiency capacity_factor in
  has_waterfall r = false ∧ has_geothermal r = false
  ∧ pipe_material r = "N/A"%string
  ∧ P_waterfall_MW r = 0 ∧ P_geo_MW r = 0 ∧ P_total_MW r == 0
  ∧ E_waste_recovered_MWh r == 0 ∧ E_total_year_MWh r == 0
  ∧ households_waste r = 0%Z ∧ households_total r = 0%Z.
Proof.
  intros Hw Hg r. subst r. rewrite calculate_energy_potential_fields.
  destruct (waterfall_cases waterfall_height waterfall_flow turbine_efficiency)
    as [(Hh & Hq & _) | (_ & ->)]; [destruct Hw; lra|].
  destruct (geothermal_cases geo_temp depth geo_efficiency capacity_factor)
    as [(HT & Hd & _) | (_ & ->)]; [destruct Hg; lra|].
  simpl. repeat split; reflexivity.
Qed.

Lemma no_viable_source_is_zero_witness :
  ((0 <= 0 ∨ 10 <= 0) ∧ (40 <= 50 ∨ 3 <= 0))
  ∧ households_total (calculate_energy_potential 0 10 40 3 0.9 0.15 0.85) = 0%Z.
Proof.
  assert (0 <= 0 ∨ 10 <= 0) as H1 by (left; by vm_compute).
  assert (40 <= 50 ∨ 3 <= 0) as H2 by (left; by vm_compute).
  split; [by split|].
  destruct (no_viable_source_is_zero 0 10 40 3 0.9 0.15 0.85 H1 H2)
    as (_ & _ & _ & _ & _ & _ & _ & _ & _ & H).
  exact H.
Defined.

(** Pipe cost.  The relative cost factor takes one of the values 0 (no
    geothermal source), 1, 2.5 and 5, and for a fixed depth it never
    decreases when the temperature rises. *)
Theorem relative_cost_monotone
    (waterfall_height waterfall_flow depth
     turbine_efficiency geo_efficiency capacity_factor T1 T2 : Q) :
  T1 <= T2 →
  let r1 := calculate_energy_potential waterfall_height waterfall_flow T1 depth
              turbine_efficiency geo_efficiency capacity_factor in
  let r2 := calculate_energy_potential waterfall_height waterfall_flow T2 depth
              turbine_efficiency geo_efficiency capacity_factor in
  relative_cost r1 <= relative_cost r2
  ∧ (relative_cost r1 = 0 ∨ relative_cost r1 = 1.0
     ∨ relative_cost r1 = 2.5 ∨ relative_cost r1 = 5.0).
Proof.
  intros HT r1 r2. subst r1 r2. rewrite !calculate_energy_potential_fields.
  cbn [relative_cost].
  destruct (geothermal_cases T1 depth geo_efficiency capacity_factor)
    as [(HT1 & Hd1 & m1 & c1 & Hc1 & ->) | (Hz1 & ->)];
    destruct (geothermal_cases T2 depth geo_efficiency capacity_factor)
      as [(HT2 & Hd2 & m2 & c2 & Hc2 & ->) | (Hz2 & ->)]; simpl.
  - split.
    + destruct Hc1 as [(-> & ?) | [(-> & ? & ?) | (-> & ?)]];
        destruct Hc2 as [(-> & ?) | [(-> & ? & ?) | (-> & ?)]];
        try lra; by vm_compute.
    + destruct Hc1 as [(-> & ?) | [(-> & ? & ?) | (-> & ?)]]; auto.
  - destruct Hz2; lra.
  - split; [|auto].
    destruct Hc2 as [(-> & ?) | [(-> & ? & ?) | (-> & ?)]]; by vm_compute.
  - split; [done | auto].
Qed.

Lemma relative_cost_monotone_witness :
  200 <= 650
  ∧ relative_cost (calculate_energy_potential 50 10 200 3 0.9 0.15 0.85)
    <= relative_cost (calculate_energy_potential 50 10 650 3 0.9 0.15 0.85).
Proof.
  assert (200 <= 650) as H by (by vm_compute).
  split; [exact H|].
  exact (proj1 (relative_cost_monotone 50 10 3 0.9 0.15 0.85 200 650 H)).
Defined.

(** Batch path.  With a positive depth, a row of "Process All Locations"
    carries the same powers, energies and household count as the
    single-location handler run with the default sliders (turbine
    efficiency 0.9, conversion efficiency 0.15, capacity factor 0.85).
    The batch path never looks at the depth: with a non-positive depth and
    a temperature above 50 it still reports geothermal power, where the
    handler reports none. *)
Theorem batch_agrees_with_default_sliders (h q temp depth : Q) :
  let row := process_location h q temp depth in
  let r := calculate_energy_potential h q temp depth 0.9 0.15 0.85 in
  (0 < depth →
     p_waterfall row == P_waterfall_MW r
     ∧ e_waterfall row == E_waterfall_year_MWh r
     ∧ p_geo row == P_geo_MW r
     ∧ e_geo row == E_geo_year_MWh r
     ∧ e_waste row == E_waste_recovered_MWh r
     ∧ total_annual row == E_total_year_MWh r
     ∧ households row = households_total r)
  ∧ (depth <= 0 → 50 < temp → P_geo_MW r = 0 ∧ 0 < p_geo row).
Proof.
  intros row r. subst row r. rewrite calculate_energy_potential_fields.
  unfold process_location.
  split.
  - intros Hd.
    assert (∃ pw ew pg eg,
              (if Qgtb h 0 && Qgtb q 0
               then (1000 * 9.81 * q * h * 0.9 / 1_000_000,
                     1000 * 9.81 * q * h * 0.9 / 1_000_000 * 24 * 365)
               else (0, 0)) = (pw, ew)
              ∧ (if Qgtb temp 50
                 then (50 * 4.18 * (temp - 25) * 0.15 / 1000,
                       50 * 4.18 * (temp - 25) * 0.15 / 1000 * 24 * 365 * 0.85)
                 else (0, 0)) = (pg, eg)
              ∧ pw == (waterfall_calculations h q 0.9).1.1.1
              ∧ ew == (waterfall_calculations h q 0.9).1.1.2
              ∧ pg == (geothermal_calculations temp depth 0.15 0.85).1.1.1.1.1.2
              ∧ eg == (geothermal_calculations temp depth 0.15 0.85).1.1.1.1.2)
      as (pw & ew & pg & eg & -> & -> & Hpw & Hew & Hpg & Heg).
    { unfold waterfall_calculations.
      destruct (Qgtb temp 50) eqn:HT.
      - apply Qgtb_true in HT.
        destruct (geothermal_viable temp depth 0.15 0.85 HT Hd) as (m & c & ->).
        destruct (Qgtb h 0 && Qgtb q 0);
          eexists _, _, _, _; (split; [reflexivity|]); (split; [reflexivity|]);
          simpl; unfold rho, g, specific_heat, surface_temp;
          repeat split; try reflexivity; field.
      - apply Qgtb_false in HT. rewrite geothermal_not_viable by done.
        destruct (Qgtb h 0 && Qgtb q 0);
          eexists _, _, _, _; (split; [reflexivity|]); (split; [reflexivity|]);
          simpl; unfold rho, g; repeat split; reflexivity. }
    cbn [p_waterfall e_waterfall p_geo e_geo e_waste total_annual households
         P_waterfall_MW E_waterfall_year_MWh P_geo_MW E_geo_year_MWh
         E_waste_recovered_MWh E_total_year_MWh households_total].
    repeat split; try done.
    + by rewrite Hew, Heg.
    + by rewrite Hew, Heg.
    + apply int_comp. by rewrite Hew, Heg.
  - intros Hd HT.
    destruct (geothermal_cases temp depth 0.15 0.85)
      as [(_ & Hd' & _) | (_ & ->)]; [lra|].
    apply Qgtb_true in HT. rewrite HT.
    destruct (Qgtb h 0 && Qgtb q 0); simpl; (split; [reflexivity|]);
      apply Qgtb_true in HT; apply Qlt_shift_div_l; try done; lra.
Qed.

Lemma batch_agrees_with_default_sliders_witness :
  0 < 3
  ∧ households (process_location 50 10 200 3)
    = households_total (calculate_energy_potential 50 10 200 3 0.9 0.15 0.85).
Proof.
  assert (0 < 3) as H by (by vm_compute).
  split; [exact H|].
  destruct (batch_agrees_with_default_sliders 50 10 200 3) as [Hagree _].
  destruct (Hagree H) as (_ & _ & _ & _ & _ & _ & Hh).
  exact Hh.
Defined.

End EstimatorExtras.

(** ** The PDF analyzer: coordinates and validation *)

Section AnalyzerExtras.

Import PDFAnalyzer PDFAnalyzerPage GeographicCalculator.
Local Open Scope Q_scope.

(** Coordinates.  Whatever the searches return, the latitude and
    longitude handed to the two [st.number_input] widgets lie inside the
    widgets' bounds [[-90, 90]] and [[-180, 180]]; when nothing was found
    they are the default Bangladesh location. *)
Theorem location_data_within_bounds (lat_searches lon_searches : list (option Q)) :
  let '(lat, lon, coords_found) := location_data lat_searches lon_searches in
  -90 <= lat ∧ lat <= 90 ∧ -180 <= lon ∧ lon <= 180
  ∧ (coords_found = false → lat = 23.8103 ∧ lon = 90.4125)
  ∧ (coords_found = true ↔
       is_Some (first_search lat_searches) ∨ is_Some (first_search lon_searches)).
Proof.
  unfold location_data.
  assert (∀ v lo hi d, lo <= d → d <= hi →
            lo <= (if Qltb v lo || Qgtb v hi then d else v)
            ∧ (if Qltb v lo || Qgtb v hi then d else v) <= hi) as Hclamp.
  { intros v lo hi d Hlo Hhi.
    destruct (Qltb v lo) eqn:H1; [done|].
    destruct (Qgtb v hi) eqn:H2; [done|]. simpl.
    apply negb_false_iff, Qle_bool_iff in H1. by apply Qgtb_false in H2. }
  destruct (first_search lat_searches) as [lat|];
    destruct (first_search lon_searches) as [lon|]; cbn [orb].
  - destruct (Hclamp lat (-90) 90 23.8103) as [? ?]; [done | done |].
    destruct (Hclamp lon (-180) 180 90.4125) as [? ?]; [done | done |].
    repeat split; try done; eauto.
  - destruct (Hclamp lat (-90) 90 23.8103) as [? ?]; [done | done |].
    destruct (Hclamp 90.4125 (-180) 180 90.4125) as [? ?]; [done | done |].
    repeat split; try done; eauto.
  - destruct (Hclamp 23.8103 (-90) 90 23.8103) as [? ?]; [done | done |].
    destruct (Hclamp lon (-180) 180 90.4125) as [? ?]; [done | done |].
    repeat split; try done; eauto.
  - repeat split; try done. intros [[? [=]] | [? [=]]].
Qed.

Lemma location_data_within_bounds_witness :
  (location_data [None; Some 95] [None; None]).1.1 <= 90.
Proof.
  pose proof (location_data_within_bounds [None; Some 95] [None; None]) as H.
  destruct (location_data [None; Some 95] [None; None]) as [[lat lon] coords_found].
  exact (proj1 (proj2 H)).
Defined.

(** Sending.  The extracted data is handed to the calculator exactly when
    a location name is given and the document has a viable source (a
    complete waterfall, or a temperature of at least 50 degrees); the
    "incomplete waterfall data" warning alone never blocks it. *)
Theorem data_sent_iff (name_missing : bool)
    (waterfall_flow waterfall_height geo_temp : Q) :
  data_sent name_missing waterfall_flow waterfall_height geo_temp = true
  ↔ name_missing = false
    ∧ (PDFAnalyzer.has_waterfall waterfall_flow waterfall_height = true
       ∨ PDFAnalyzer.has_geothermal geo_temp = true).
Proof.
  unfold data_sent, validation_errors, critical_errors.
  rewrite bool_decide_eq_true.
  destruct name_missing;
    destruct (PDFAnalyzer.has_waterfall waterfall_flow waterfall_height);
    destruct (PDFAnalyzer.has_geothermal geo_temp);
    destruct ((Qgtb waterfall_flow 0 && Qeq_bool waterfall_height 0)
              || (Qeq_bool waterfall_flow 0 && Qgtb waterfall_height 0));
    cbn; split; try done; try (intros [? _]; done); try (intros [_ [? | ?]]; done);
    auto.
Qed.

Lemma data_sent_iff_witness : data_sent false 0 12 180 = true.
Proof.
  apply (proj2 (data_sent_iff false 0 12 180)).
  split; [reflexivity | right; reflexivity].
Defined.

(** From the analyzer to the calculator.  A document that passes the
    validation yields strictly positive total power in the calculator, for
    positive depth and efficiencies, unless its only source is a
    geothermal temperature of exactly 50 degrees. *)
Theorem sent_data_has_positive_power (name_missing : bool)
    (waterfall_flow waterfall_height geo_temp depth
     turbine_efficiency geo_efficiency capacity_factor : Q) :
  data_sent name_missing waterfall_flow waterfall_height geo_temp = true →
  0 < depth → 0 < turbine_efficiency → 0 < geo_efficiency →
  PDFAnalyzer.has_waterfall waterfall_flow waterfall_height = true ∨ ¬ geo_temp == 50 →
  0 < P_total_MW (calculate_energy_potential waterfall_height waterfall_flow geo_temp depth
                    turbine_efficiency geo_efficiency capacity_factor).
Proof.
  intros Hsent Hd Ht He Hsrc.
  apply data_sent_iff in Hsent as [_ Hviable].
  rewrite calculate_energy_potential_fields. cbn [P_total_MW].
  assert (0 <= (waterfall_calculations waterfall_height waterfall_flow
                  turbine_efficiency).1.1.1) as HPw
    by (apply waterfall_energy_nonneg; lra).
  assert (0 <= (geothermal_calculations geo_temp depth geo_efficiency
                  capacity_factor).1.1.1.1.1.2) as HPg.
  { destruct (geothermal_cases geo_temp depth geo_efficiency capacity_factor)
      as [(HT & _ & m & c & _ & ->) | (_ & ->)]; simpl; [|done].
    unfold specific_heat, surface_temp. apply Qle_shift_div_l; [done|]. nra. }
  destruct (PDFAnalyzer.has_waterfall waterfall_flow waterfall_height) eqn:Hw.
  - apply andb_true_iff in Hw as [Hq Hh]. apply Qgtb_true in Hq, Hh.
    rewrite waterfall_viable in * by done. simpl in *.
    assert (0 < rho * g * waterfall_flow * waterfall_height * turbine_efficiency
                / 1_000_000) as Hpos.
    { unfold rho, g. apply Qlt_shift_div_l; [done|].
      assert (0 < waterfall_flow * waterfall_height) by nra.
      assert (0 < waterfall_flow * waterfall_height * turbine_efficiency) by nra.
      lra. }
    lra.
  - destruct Hviable as [? | HT]; [done|]. destruct Hsrc as [? | Hne]; [done|].
    apply Qgeb_true in HT.
    assert (50 < geo_temp) as HT'.
    { apply Qnot_le_lt. intros Hle. apply Hne. by apply Qle_antisym. }
    destruct (geothermal_viable geo_temp depth geo_efficiency capacity_factor HT' Hd)
      as (m & c & HG).
    rewrite HG in *. simpl in *.
    assert (0 < 50.0 * specific_heat * (geo_temp - surface_temp) * geo_efficiency / 1000)
      as Hpos.
    { unfold specific_heat, surface_temp. apply Qlt_shift_div_l; [done|]. nra. }
    lra.
Qed.

Lemma sent_data_has_positive_power_witness :
  (data_sent false 0 0 180 = true ∧ 0 < 3 ∧ 0 < 0.9 ∧ 0 < 0.15
   ∧ (PDFAnalyzer.has_waterfall 0 0 = true ∨ ¬ 180 == 50))
  ∧ 0 < P_total_MW (calculate_energy_potential 0 0 180 3 0.9 0.15 0.85).
Proof.
  assert (data_sent false 0 0 180 = true) as H1 by reflexivity.
  assert (0 < 3) as H2 by reflexivity.
  assert (0 < 0.9) as H3 by reflexivity.
  assert (0 < 0.15) as H4 by reflexivity.
  assert (PDFAnalyzer.has_waterfall 0 0 = true ∨ ¬ 180 == 50) as H5
    by (right; intros H; discriminate H).
  split; [by repeat split|].
  exact (sent_data_has_positive_power false 0 0 180 3 0.9 0.15 0.85 H1 H2 H3 H4 H5).
Defined.



End AnalyzerExtras.

(** ** The "Analysis" tab: sensitivity curves *)

Section AnalysisExtras.

Import GeographicCalculator Analysis.
Local Open Scope Q_scope.

Lemma length_linspace (start stop : Q) (num : Z) :
  length (linspace start stop num) = Z.to_nat num.
Proof. unfold linspace. by rewrite length_insert, length_fmap, length_range. Qed.

(** The samples of [np.linspace], up to numeric equality. *)
Lemma linspace_lookup (start stop : Q) (num : Z) (i : nat) (x : Q) :
  (2 ≤ num)%Z → linspace start stop num !! i = Some x →
  (i < Z.to_nat num)%nat
  ∧ x == start + inject_Z (Z.of_nat i) * ((stop - start) / inject_Z (num - 1)).
Proof.
  intros Hnum Hx.
  assert (i < Z.to_nat num)%nat as Hi.
  { apply lookup_lt_Some in Hx. by rewrite length_linspace in Hx. }
  split; [done|]. unfold linspace in Hx.
  destruct (decide (i = Z.to_nat (num - 1))) as [-> | Hne].
  - rewrite list_lookup_insert_eq in Hx
      by (rewrite length_fmap, length_range; lia).
    injection Hx as <-. rewrite Z2Nat.id by lia.
    field. intros H0. unfold Qeq in H0. simpl in H0. lia.
  - rewrite list_lookup_insert_ne in Hx by done.
    rewrite list_lookup_fmap, lookup_range in Hx by done.
    injection Hx as <-. ring.
Qed.

(** Samples stay between the end points. *)
Lemma linspace_bounds (start stop : Q) (num : Z) (i : nat) (x : Q) :
  (2 ≤ num)%Z → start <= stop → linspace start stop num !! i = Some x →
  start <= x ∧ x <= stop.
Proof.
  intros Hnum Hle Hx.
  destruct (linspace_lookup start stop num i x Hnum Hx) as [Hi ->].
  assert (0 < inject_Z (num - 1)) as Hpos.
  { change 0 with (inject_Z 0). rewrite <- Zlt_Qlt. lia. }
  assert (inject_Z (Z.of_nat i) <= inject_Z (num - 1)) as Hin.
  { rewrite <- Zle_Qle. lia. }
  assert (0 <= inject_Z (Z.of_nat i)) as Hi0.
  { change 0 with (inject_Z 0). rewrite <- Zle_Qle. lia. }
  set (n := inject_Z (num - 1)) in *. set (k := inject_Z (Z.of_nat i)) in *.
  assert (0 <= (stop - start) / n) as Hstep.
  { apply Qle_shift_div_l; [done | lra]. }
  assert ((stop - start) / n * n == stop - start) as Hn.
  { field. lra. }
  split; [nra|].
  assert (k * ((stop - start) / n) <= n * ((stop - start) / n)) by nra.
  lra.
Qed.

(** Depth sensitivity.  For a viable geothermal source computed with the
    conversion efficiency 0.15, the curve has 50 points at depths between
    1 and 10 km, and on it power is proportional to depth: each point
    satisfies [power * base_depth == P_geo_MW * depth], so the curve passes
    through the stored result at the base depth.  A base depth of zero
    raises the division error. *)
Theorem depth_sensitivity_proportional
    (waterfall_height waterfall_flow geo_temp depth
     turbine_efficiency capacity_factor : Q) :
  50 < geo_temp → 0 < depth →
  let r := calculate_energy_potential waterfall_height waterfall_flow geo_temp depth
             turbine_efficiency 0.15 capacity_factor in
  (∃ depth_range power_range,
     depth_sensitivity depth geo_temp = Some (depth_range, power_range)
     ∧ length depth_range = 50%nat ∧ length power_range = 50%nat
     ∧ (∀ (i : nat) (x : Q), depth_range !! i = Some x → 1 <= x ∧ x <= 10)
     ∧ (∀ (i : nat) (x p : Q),
          depth_range !! i = Some x → power_range !! i = Some p →
          p * depth == P_geo_MW r * x))
  ∧ (∀ base_temp d0, d0 == 0 → depth_sensitivity d0 base_temp = None).
Proof.
  intros HT Hd r. subst r. split.
  - rewrite geothermal_power_above_50 by done.
    unfold depth_sensitivity.
    destruct (Qeq_bool depth 0) eqn:H0.
    { apply Qeq_bool_iff in H0. lra. }
    eexists _, _. split; [reflexivity|].
    split; [by rewrite length_linspace|].
    split; [by rewrite !length_fmap, length_linspace|].
    split.
    + intros i x Hx. by apply (linspace_bounds 1 10 50 i x).
    + intros i x p Hx Hp.
      rewrite !list_lookup_fmap, Hx in Hp. injection Hp as <-.
      unfold specific_heat, surface_temp. field. lra.
  - intros base_temp d0 H0. unfold depth_sensitivity.
    apply Qeq_bool_iff in H0. by rewrite H0.
Qed.

Lemma depth_sensitivity_proportional_witness :
  (50 < 200 ∧ 0 < 3)
  ∧ ∃ depth_range power_range,
      depth_sensitivity 3 200 = Some (depth_range, power_range)
      ∧ length power_range = 50%nat.
Proof.
  assert (50 < 200) as H1 by reflexivity.
  assert (0 < 3) as H2 by reflexivity.
  split; [by split|].
  destruct (depth_sensitivity_proportional 50 10 200 3 0.9 0.85 H1 H2)
    as [(depth_range & power_range & Hs & _ & Hlen & _) _].
  exists depth_range, power_range. split; [exact Hs | exact Hlen].
Defined.

(** Flow and height sensitivity.  Both curves have 50 points between half
    and one and a half times the stored value, and are drawn for a turbine
    efficiency of 0.9: against the stored waterfall power, computed with
    the slider's efficiency, each point satisfies
    [power * base * efficiency == P_waterfall_MW * sample * 0.9]. *)
Theorem waterfall_sensitivity_lines
    (waterfall_height waterfall_flow geo_temp depth
     turbine_efficiency geo_efficiency capacity_factor : Q) :
  0 < waterfall_height → 0 < waterfall_flow →
  let r := calculate_energy_potential waterfall_height waterfall_flow geo_temp depth
             turbine_efficiency geo_efficiency capacity_factor in
  let '(flow_range, flow_power) := flow_sensitivity waterfall_flow waterfall_height in
  let '(height_range, height_power) := height_sensitivity waterfall_flow waterfall_height in
  length flow_power = 50%nat ∧ length height_power = 50%nat
  ∧ (∀ (i : nat) (f p : Q), flow_range !! i = Some f → flow_power !! i = Some p →
       waterfall_flow * 0.5 <= f ∧ f <= waterfall_flow * 1.5
       ∧ p * waterfall_flow * turbine_efficiency == P_waterfall_MW r * f * 0.9)
  ∧ (∀ (i : nat) (h p : Q), height_range !! i = Some h → height_power !! i = Some p →
       waterfall_height * 0.5 <= h ∧ h <= waterfall_height * 1.5
       ∧ p * waterfall_height * turbine_efficiency == P_waterfall_MW r * h * 0.9).
Proof.
  intros Hh Hq r. subst r.
  rewrite P_waterfall_MW_calculate, waterfall_viable by done.
  unfold flow_sensitivity, height_sensitivity. cbn [fst].
  split; [by rewrite length_fmap, length_linspace|].
  split; [by rewrite length_fmap, length_linspace|].
  split.
  - intros i f p Hf Hp. rewrite list_lookup_fmap, Hf in Hp. injection Hp as <-.
    assert (waterfall_flow * 0.5 <= waterfall_flow * 1.5) as Hr by lra.
    destruct (linspace_bounds _ _ 50 i f ltac:(lia) Hr Hf) as [? ?].
    split; [done|]. split; [done|]. unfold rho, g. field.
  - intros i h p Hh' Hp. rewrite list_lookup_fmap, Hh' in Hp. injection Hp as <-.
    assert (waterfall_height * 0.5 <= waterfall_height * 1.5) as Hr by lra.
    destruct (linspace_bounds _ _ 50 i h ltac:(lia) Hr Hh') as [? ?].
    split; [done|]. split; [done|]. unfold rho, g. field.
Qed.

Lemma waterfall_sensitivity_lines_witness :
  (0 < 50 ∧ 0 < 10)
  ∧ length (flow_sensitivity 10 50).2 = 50%nat.
Proof.
  assert (0 < 50) as H1 by reflexivity.
  assert (0 < 10) as H2 by reflexivity.
  split; [by split|].
  pose proof (waterfall_sensitivity_lines 50 10 200 3 0.9 0.15 0.85 H1 H2) as H.
  cbv zeta in H.
  destruct (flow_sensitivity 10 50) as [flow_range flow_power].
  destruct (height_sensitivity 10 50) as [height_range height_power].
  exact (proj1 H).
Defined.

(** Temperature sensitivity.  The curve has 50 points between 150 and 400
    degrees, and each point is the geothermal power the calculator computes
    at that temperature with the conversion efficiency 0.15, at any
    positive depth. *)
Theorem temperature_sensitivity_matches_calculator
    (waterfall_height waterfall_flow depth turbine_efficiency capacity_factor : Q) :
  0 < depth →
  let '(temp_range, power_range) := temperature_sensitivity in
  length temp_range = 50%nat ∧ length power_range = 50%nat
  ∧ ∀ (i : nat) (t p : Q), temp_range !! i = Some t → power_range !! i = Some p →
      150 <= t ∧ t <= 400
      ∧ p == P_geo_MW (calculate_energy_potential waterfall_height waterfall_flow t depth
                         turbine_efficiency 0.15 capacity_factor).
Proof.
  intros Hd. unfold temperature_sensitivity.
  split; [by rewrite length_linspace|].
  split; [by rewrite length_fmap, length_linspace|].
  intros i t p Ht Hp. rewrite list_lookup_fmap, Ht in Hp. injection Hp as <-.
  assert (150 <= 400) as Hr by (by vm_compute).
  destruct (linspace_bounds 150 400 50 i t ltac:(lia) Hr Ht) as [Hlo Hhi].
  split; [done|]. split; [done|].
  rewrite geothermal_power_above_50 by (done || lra).
  unfold specific_heat, surface_temp. field.
Qed.

Lemma temperature_sensitivity_matches_calculator_witness :
  0 < 3 ∧ length temperature_sensitivity.2 = 50%nat.
Proof.
  assert (0 < 3) as H by reflexivity.
  split; [exact H|].
  pose proof (temperature_sensitivity_matches_calculator 50 10 3 0.9 0.85 H) as Hs.
  destruct temperature_sensitivity as [temp_range power_range].
  exact (proj1 (proj2 Hs)).
Defined.

End AnalysisExtras.

(** ** The forecast page: window alignment, errors, shape and scaling *)

Section ForecastExtras.

Import GeographicCalculator TimeSeriesPredictor ForecastPage.
Local Open Scope Q_scope.

(** The months of the seed window continue the month numbering of the
    forecast steps backwards. *)
Lemma historical_point_month (s i : Z) :
  historical_point s i
  = (inject_Z (base_climate (month_num s (- i))).1,
     inject_Z (base_climate (month_num s (- i))).2).
Proof.
  unfold historical_point, month_num.
  replace (s + - i - 1)%Z with ((s - i) - 1)%Z by lia.
  generalize (s - i)%Z. intros x.
  assert ((if (x `mod` 12 =? 0)%Z then 12%Z else (x `mod` 12)%Z)
          = ((x - 1) `mod` 12 + 1)%Z) as ->; [|done].
  pose proof (Z.div_mod x 12). pose proof (Z.mod_pos_bound x 12).
  pose proof (Z.div_mod (x - 1) 12). pose proof (Z.mod_pos_bound (x - 1) 12).
  destruct (Z.eqb_spec (x `mod` 12) 0); lia.
Qed.

Lemma seed_window_lookup (s : Z) (n : nat) :
  (n < 12)%nat →
  seed_window s !! n = Some (historical_point s (12 - Z.of_nat n)).
Proof.
  intros Hn. unfold seed_window, range_down.
  rewrite !list_lookup_fmap, lookup_seq_lt by (simpl; lia).
  simpl. do 2 f_equal.
Qed.

Lemma forward_sequence_lookup (R : numpy_random) (s : Z) (temp_mult rain_mult : Q)
    (n : Z) (i : nat) :
  (i < Z.to_nat n)%nat →
  forward_sequence R s temp_mult rain_mult n !! i
  = Some (temperature_at R s temp_mult (Z.of_nat i),
          rainfall_at R s rain_mult (Z.of_nat i)).
Proof.
  intros Hi. unfold forward_sequence.
  by rewrite list_lookup_fmap, lookup_range.
Qed.

(** Window alignment.  Before step [k] of the forecast loop ([k] steps
    done), row [j] of the window is the climate of the month [k + j - 12]
    steps from the first forecast month: a row of the monthly table for a
    month before the start month, the generated forward point otherwise.
    The model input of step [k] is thus always the twelve months that
    immediately precede forecast month [k], oldest first. *)
Theorem window_alignment (M : lstm) (R : numpy_random) (r0 : rng_state R)
    (base_power_mw : Q) (forecast_months s : Z) (temp_mult rain_mult : Q)
    (k j : nat) :
  (k ≤ Z.to_nat forecast_months)%nat → (j < 12)%nat →
  ∃ c r h st,
    generate_climate R r0 forecast_months s temp_mult rain_mult = Some (c, r)
    ∧ historical_months s = Some h
    ∧ forecast_loop M base_power_mw (temperatures c) (rainfalls c) h
        (range (Z.of_nat k)) = Some st
    ∧ current_sequence st !! j
      = Some (climate_row R s temp_mult rain_mult (Z.of_nat k + Z.of_nat j - 12)).
Proof.
  intros Hk Hj.
  destruct (generate_climate_closed R r0 forecast_months s temp_mult rain_mult)
    as [r Hgen].
  eexists _, r, (seed_window s), _.
  split; [exact Hgen|]. split; [apply historical_months_closed|].
  split.
  { apply forecast_loop_closed; [apply length_seed_window | |].
    - rewrite length_temperatures. lia.
    - rewrite length_rainfalls. lia. }
  cbn [current_sequence state_at]. rewrite zip_climate_at. unfold window_at.
  rewrite lookup_take_lt by lia. rewrite lookup_drop.
  unfold climate_row.
  destruct (Z.ltb_spec (Z.of_nat k + Z.of_nat j - 12) 0) as [Hneg | Hpos].
  - rewrite lookup_app_l by (rewrite length_seed_window; lia).
    rewrite seed_window_lookup by lia. rewrite historical_point_month.
    by replace (- (12 - Z.of_nat (k + j)))%Z
      with (Z.of_nat k + Z.of_nat j - 12)%Z by lia.
  - rewrite lookup_app_r by (rewrite length_seed_window; lia).
    rewrite length_seed_window.
    rewrite forward_sequence_lookup by lia.
    by replace (Z.of_nat (k + j - 12))
      with (Z.of_nat k + Z.of_nat j - 12)%Z by lia.
Qed.

Lemma window_alignment_witness :
  ((2 ≤ Z.to_nat 3)%nat ∧ (11 < 12)%nat)
  ∧ ∃ c r h st,
      generate_climate Demo.demo_random 7%Z 3 11 1.1 0.9 = Some (c, r)
      ∧ historical_months 11 = Some h
      ∧ forecast_loop Demo.demo_lstm 2 (temperatures c) (rainfalls c) h
          (range (Z.of_nat 2)) = Some st
      ∧ current_sequence st !! 11%nat
        = Some (climate_row Demo.demo_random 11 1.1 0.9 (Z.of_nat 2 + Z.of_nat 11 - 12)).
Proof.
  assert (2 ≤ Z.to_nat 3)%nat as H1 by (simpl; lia).
  assert (11 < 12)%nat as H2 by lia.
  split; [by split|].
  exact (window_alignment Demo.demo_lstm Demo.demo_random 7%Z 2 3 11 1.1 0.9
           2%nat 11%nat H1 H2).
Defined.

(** The options offered by the page's two selectors. *)
Lemma month_map_lookup (start_month : string) :
  is_Some (month_map !! start_month)
  ↔ start_month ∈ ["January"; "February"; "March"; "April"; "May"; "June";
                   "July"; "August"; "September"; "October"; "November";
                   "December"]%string.
Proof.
  rewrite <- not_eq_None_Some. unfold month_map.
  rewrite <- not_elem_of_list_to_map. cbn [fmap list_fmap fst].
  split; [apply dec_stable | auto].
Qed.

Lemma climate_adjustments_lookup (climate_scenario : string) :
  is_Some (climate_adjustments !! climate_scenario)
  ↔ climate_scenario ∈ ["Normal"; "Wetter (More Monsoon)"; "Drier (Less Rain)";
                        "Hotter"]%string.
Proof.
  rewrite <- not_eq_None_Some. unfold climate_adjustments.
  rewrite <- not_elem_of_list_to_map. cbn [fmap list_fmap fst].
  split; [apply dec_stable | auto].
Qed.

(** Errors and shape.  The handler completes exactly when the start month
    and the scenario are among the options of the page (any other key
    raises), whatever the horizon, the capacities, the model and the
    generator state are.  When it completes, all eleven stored series have
    one entry per forecast month, none for a horizon of zero or less. *)
Theorem forecast_completes_iff (M : lstm) (R : numpy_random) (r0 : rng_state R)
    (base_power_mw waterfall_mw geo_mw : Q) (forecast_months : Z)
    (start_month climate_scenario : string) :
  (is_Some (generate_lstm_forecast M R r0 base_power_mw waterfall_mw geo_mw
              forecast_months start_month climate_scenario)
   ↔ start_month ∈ ["January"; "February"; "March"; "April"; "May"; "June";
                    "July"; "August"; "September"; "October"; "November";
                    "December"]%string
     ∧ climate_scenario ∈ ["Normal"; "Wetter (More Monsoon)"; "Drier (Less Rain)";
                           "Hotter"]%string)
  ∧ ∀ p r,
      generate_lstm_forecast M R r0 base_power_mw waterfall_mw geo_mw
        forecast_months start_month climate_scenario = Some (p, r) →
      Forall (λ series : list Q, length series = Z.to_nat forecast_months)
        [p_temperatures p; p_rainfalls p; waterfall_mw_series p; geo_mw_series p;
         total_mw p; waterfall_mwh p; geo_mwh p; total_mwh p;
         p_confidence_lower p; p_confidence_upper p]
      ∧ length (p_months p) = Z.to_nat forecast_months.
Proof.
  rewrite <- month_map_lookup, <- climate_adjustments_lookup.
  destruct (month_map !! start_month) as [s|] eqn:Hs.
  - destruct (climate_adjustments !! climate_scenario)
      as [[temp_mult rain_mult]|] eqn:Hc.
    + destruct (generate_lstm_forecast_closed M R r0 base_power_mw waterfall_mw geo_mw
                  forecast_months start_month climate_scenario s temp_mult rain_mult
                  Hs Hc) as [r' Hgen].
      rewrite Hgen. split; [split; eauto|].
      intros p r [= <- <-].
      unfold store_predictions. cbn -[range].
      split; [|by rewrite length_fmap, length_range].
      repeat constructor;
        by rewrite ?length_fmap, ?length_seq, ?length_range.
    + split.
      * unfold generate_lstm_forecast. rewrite Hs, Hc. cbn.
        split; [intros [? [=]] | intros [_ [? [=]]]].
      * unfold generate_lstm_forecast. rewrite Hs, Hc. cbn. intros ? ? [=].
  - split.
    + unfold generate_lstm_forecast. rewrite Hs. cbn.
      split; [intros [? [=]] | intros [[? [=]] _]].
    + unfold generate_lstm_forecast. rewrite Hs. cbn. intros ? ? [=].
Qed.

Lemma forecast_completes_iff_witness :
  is_Some (generate_lstm_forecast Demo.demo_lstm Demo.demo_random 7%Z 2 1 1
             6 "March" "Hotter").
Proof.
  apply (proj1 (forecast_completes_iff Demo.demo_lstm Demo.demo_random 7%Z 2 1 1
                  6 "March" "Hotter")).
  split; set_solver.
Defined.

(** Sums of series. *)
Lemma py_sum_snoc (l : list Q) (x : Q) : py_sum (l ++ [x]) = py_sum l + x.
Proof. unfold py_sum. by rewrite fold_left_app. Qed.

Lemma py_sum_zero (l : list Q) : Forall (λ e, e == 0) l → py_sum l == 0.
Proof.
  induction l as [|x l IH] using rev_ind; intros Hl; [reflexivity|].
  apply Forall_app in Hl as [Hl Hx]. apply Forall_inv in Hx.
  simpl in Hx. specialize (IH Hl).
  rewrite py_sum_snoc. lra.
Qed.

(** The two source ratios add up to one whenever the capacities handed
    over are those of one calculation. *)
Lemma source_ratios_sum (waterfall_mw geo_mw : Q) :
  waterfall_ratio waterfall_mw (waterfall_mw + geo_mw)
  + geo_ratio geo_mw (waterfall_mw + geo_mw) == 1.
Proof.
  unfold waterfall_ratio, geo_ratio.
  destruct (Qgtb (waterfall_mw + geo_mw) 0) eqn:Hb; [|reflexivity].
  apply Qgtb_true in Hb. field. lra.
Qed.

(** Partition by source.  Whatever the calculator computed, the forecast
    on its stored result completes for the page's options, and at every
    step the waterfall and the geothermal energy add up to the total
    energy (the ratios come from one calculation, or are 0.5 each when the
    total power is zero). *)
Theorem source_partition_adds_up (M : lstm) (R : numpy_random) (r0 : rng_state R)
    (waterfall_height waterfall_flow geo_temp depth
     turbine_efficiency geo_efficiency capacity_factor : Q)
    (forecast_months : Z) (start_month climate_scenario : string) :
  is_Some (month_map !! start_month) →
  is_Some (climate_adjustments !! climate_scenario) →
  let geo := calculate_energy_potential waterfall_height waterfall_flow geo_temp depth
               turbine_efficiency geo_efficiency capacity_factor in
  ∃ p r,
    forecast_from_geo_data M R r0 geo forecast_months start_month climate_scenario
    = Some (p, r)
    ∧ ∀ (i : nat) (e : Q), total_mwh p !! i = Some e →
        ∃ w g, waterfall_mwh p !! i = Some w ∧ geo_mwh p !! i = Some g
               ∧ w + g == e.
Proof.
  intros [s Hs] [[temp_mult rain_mult] Hc] geo. subst geo.
  unfold forecast_from_geo_data.
  rewrite calculate_energy_potential_fields.
  cbn [P_total_MW P_waterfall_MW P_geo_MW].
  set (Pw := (waterfall_calculations _ _ _).1.1.1).
  set (Pg := (geothermal_calculations _ _ _ _).1.1.1.1.1.2).
  destruct (generate_lstm_forecast_closed M R r0 (Pw + Pg) Pw Pg
              forecast_months start_month climate_scenario s temp_mult rain_mult Hs Hc)
    as [r Hgen].
  eexists _, r. split; [exact Hgen|].
  unfold store_predictions. cbn [total_mwh waterfall_mwh geo_mwh].
  intros i e He. rewrite !list_lookup_fmap. rewrite He. simpl.
  eexists _, _. split; [reflexivity|]. split; [reflexivity|].
  pose proof (source_ratios_sum Pw Pg) as Hsum.
  set (rw := waterfall_ratio Pw (Pw + Pg)) in *.
  set (rg := geo_ratio Pg (Pw + Pg)) in *.
  assert (e * rw + e * rg == e * (rw + rg)) as -> by ring.
  rewrite Hsum. ring.
Qed.

Lemma source_partition_adds_up_witness :
  (is_Some (month_map !! "June"%string)
   ∧ is_Some (climate_adjustments !! "Normal"%string))
  ∧ ∃ p r,
      forecast_from_geo_data Demo.demo_lstm Demo.demo_random 7%Z
        (calculate_energy_potential 50 10 200 3 0.9 0.15 0.85) 3 "June" "Normal"
      = Some (p, r).
Proof.
  assert (is_Some (month_map !! "June"%string)) as H1 by (by eexists).
  assert (is_Some (climate_adjustments !! "Normal"%string)) as H2 by (by eexists).
  split; [by split|].
  destruct (source_partition_adds_up Demo.demo_lstm Demo.demo_random 7%Z
              50 10 200 3 0.9 0.15 0.85 3 "June" "Normal" H1 H2)
    as (p & r & Hgen & _).
  exists p, r. exact Hgen.
Defined.

(** Linearity in the capacity.  Multiplying the capacity by a factor
    multiplies every predicted energy by that factor and leaves the month
    labels and the climate inputs unchanged: the shape of the forecast does
    not depend on the size of the system. *)
Theorem forecast_linear_in_capacity (M : lstm) (R : numpy_random) (r0 : rng_state R)
    (base_power_mw waterfall_mw geo_mw factor : Q) (forecast_months : Z)
    (start_month climate_scenario : string) :
  is_Some (month_map !! start_month) →
  is_Some (climate_adjustments !! climate_scenario) →
  ∃ p1 r1 p2 r2,
    generate_lstm_forecast M R r0 base_power_mw waterfall_mw geo_mw
      forecast_months start_month climate_scenario = Some (p1, r1)
    ∧ generate_lstm_forecast M R r0 (factor * base_power_mw) waterfall_mw geo_mw
        forecast_months start_month climate_scenario = Some (p2, r2)
    ∧ p_months p2 = p_months p1
    ∧ p_temperatures p2 = p_temperatures p1
    ∧ p_rainfalls p2 = p_rainfalls p1
    ∧ Forall2 (λ e2 e1, e2 == factor * e1) (total_mwh p2) (total_mwh p1)
    ∧ total_annual_mwh p2 == factor * total_annual_mwh p1.
Proof.
  intros [s Hs] [[temp_mult rain_mult] Hc].
  destruct (generate_lstm_forecast_closed M R r0 base_power_mw waterfall_mw geo_mw
              forecast_months start_month climate_scenario s temp_mult rain_mult Hs Hc)
    as [r1 Hgen1].
  destruct (generate_lstm_forecast_closed M R r0 (factor * base_power_mw)
              waterfall_mw geo_mw
              forecast_months start_month climate_scenario s temp_mult rain_mult Hs Hc)
    as [r2 Hgen2].
  eexists _, r1, _, r2. split; [exact Hgen1|]. split; [exact Hgen2|].
  unfold store_predictions.
  cbn [p_months p_temperatures p_rainfalls total_mwh total_annual_mwh
       predictions_mwh state_at].
  split; [done|]. split; [done|]. split; [done|].
  assert (∀ k, scaled_prediction_at M (factor * base_power_mw) (seed_window s)
                 (forward_sequence R s temp_mult rain_mult forecast_months) k
               == factor * scaled_prediction_at M base_power_mw (seed_window s)
                             (forward_sequence R s temp_mult rain_mult forecast_months) k)
    as Hscaled.
  { intros k. unfold scaled_prediction_at, scale_factor. field. }
  split.
  - apply Forall2_fmap, Forall_Forall2_diag, Forall_forall. intros k _. apply Hscaled.
  - clear Hgen1 Hgen2.
    induction (Z.to_nat forecast_months) as [|n IH];
      [unfold py_sum; simpl; ring|].
    rewrite seq_S, !fmap_app. cbn [fmap list_fmap].
    rewrite !py_sum_snoc, IH. cbn [Nat.add]. rewrite Hscaled. ring.
Qed.

Lemma forecast_linear_in_capacity_witness :
  (is_Some (month_map !! "June"%string)
   ∧ is_Some (climate_adjustments !! "Normal"%string))
  ∧ ∃ p1 r1 p2 r2,
      generate_lstm_forecast Demo.demo_lstm Demo.demo_random 7%Z 2 1 1
        3 "June" "Normal" = Some (p1, r1)
      ∧ generate_lstm_forecast Demo.demo_lstm Demo.demo_random 7%Z (3 * 2) 1 1
          3 "June" "Normal" = Some (p2, r2)
      ∧ total_annual_mwh p2 == 3 * total_annual_mwh p1.
Proof.
  assert (is_Some (month_map !! "June"%string)) as H1 by (by eexists).
  assert (is_Some (climate_adjustments !! "Normal"%string)) as H2 by (by eexists).
  split; [by split|].
  destruct (forecast_linear_in_capacity Demo.demo_lstm Demo.demo_random 7%Z 2 1 1 3
              3 "June" "Normal" H1 H2)
    as (p1 & r1 & p2 & r2 & Hg1 & Hg2 & _ & _ & _ & _ & Hsum).
  exists p1, r1, p2, r2. split; [exact Hg1|]. split; [exact Hg2 | exact Hsum].
Defined.

(** Scenarios.  From the same start month and horizon, the "Wetter" and
    "Drier" scenarios keep the temperatures of the "Normal" scenario and
    scale its rainfall by 1.3 and 0.7 month by month; "Hotter" scales the
    temperatures by 1.1 and the rainfall by 0.9.  The jitter is the same in
    all four, and so are the month labels. *)
Theorem scenario_effects (M : lstm) (R : numpy_random) (r0 : rng_state R)
    (base_power_mw waterfall_mw geo_mw : Q) (forecast_months : Z)
    (start_month : string) :
  is_Some (month_map !! start_month) →
  ∃ normal wetter drier hotter r1 r2 r3 r4,
    generate_lstm_forecast M R r0 base_power_mw waterfall_mw geo_mw
      forecast_months start_month "Normal" = Some (normal, r1)
    ∧ generate_lstm_forecast M R r0 base_power_mw waterfall_mw geo_mw
        forecast_months start_month "Wetter (More Monsoon)" = Some (wetter, r2)
    ∧ generate_lstm_forecast M R r0 base_power_mw waterfall_mw geo_mw
        forecast_months start_month "Drier (Less Rain)" = Some (drier, r3)
    ∧ generate_lstm_forecast M R r0 base_power_mw waterfall_mw geo_mw
        forecast_months start_month "Hotter" = Some (hotter, r4)
    ∧ p_months wetter = p_months normal
    ∧ p_months drier = p_months normal
    ∧ p_months hotter = p_months normal
    ∧ p_temperatures wetter = p_temperatures normal
    ∧ p_temperatures drier = p_temperatures normal
    ∧ Forall2 (λ w n, w == 1.3 * n) (p_rainfalls wetter) (p_rainfalls normal)
    ∧ Forall2 (λ d n, d == 0.7 * n) (p_rainfalls drier) (p_rainfalls normal)
    ∧ Forall2 (λ h n, h == 1.1 * n) (p_temperatures hotter) (p_temperatures normal)
    ∧ Forall2 (λ h n, h == 0.9 * n) (p_rainfalls hotter) (p_rainfalls normal).
Proof.
  intros [s Hs].
  assert (climate_adjustments !! "Normal"%string = Some (1.0, 1.0)) as Hn
    by reflexivity.
  assert (climate_adjustments !! "Wetter (More Monsoon)"%string = Some (1.0, 1.3)) as Hw
    by reflexivity.
  assert (climate_adjustments !! "Drier (Less Rain)"%string = Some (1.0, 0.7)) as Hd
    by reflexivity.
  assert (climate_adjustments !! "Hotter"%string = Some (1.1, 0.9)) as Hh
    by reflexivity.
  destruct (generate_lstm_forecast_closed M R r0 base_power_mw waterfall_mw geo_mw
              forecast_months start_month _ s _ _ Hs Hn) as [r1 H1].
  destruct (generate_lstm_forecast_closed M R r0 base_power_mw waterfall_mw geo_mw
              forecast_months start_month _ s _ _ Hs Hw) as [r2 H2].
  destruct (generate_lstm_forecast_closed M R r0 base_power_mw waterfall_mw geo_mw
              forecast_months start_month _ s _ _ Hs Hd) as [r3 H3].
  destruct (generate_lstm_forecast_closed M R r0 base_power_mw waterfall_mw geo_mw
              forecast_months start_month _ s _ _ Hs Hh) as [r4 H4].
  eexists _, _, _, _, r1, r2, r3, r4.
  split; [exact H1|]. split; [exact H2|]. split; [exact H3|]. split; [exact H4|].
  unfold store_predictions.
  cbn [p_months p_temperatures p_rainfalls months temperatures rainfalls climate_at].
  do 5 (split; [reflexivity|]).
  repeat split; apply Forall2_fmap, Forall_Forall2_diag, Forall_forall; intros i _;
    unfold temperature_at, rainfall_at; ring.
Qed.

Lemma scenario_effects_witness :
  is_Some (month_map !! "June"%string)
  ∧ ∃ normal wetter r1 r2,
      generate_lstm_forecast Demo.demo_lstm Demo.demo_random 7%Z 2 1 1
        3 "June" "Normal" = Some (normal, r1)
      ∧ generate_lstm_forecast Demo.demo_lstm Demo.demo_random 7%Z 2 1 1
          3 "June" "Wetter (More Monsoon)" = Some (wetter, r2)
      ∧ p_temperatures wetter = p_temperatures normal.
Proof.
  assert (is_Some (month_map !! "June"%string)) as H1 by (by eexists).
  split; [exact H1|].
  destruct (scenario_effects Demo.demo_lstm Demo.demo_random 7%Z 2 1 1 3 "June" H1)
    as (normal & wetter & drier & hotter & r1 & r2 & r3 & r4
        & Hn & Hw & _ & _ & _ & _ & _ & Ht & _).
  exists normal, wetter, r1, r2.
  split; [exact Hn|]. split; [exact Hw | exact Ht].
Defined.



(** A location without a viable source, forecast.  The calculator stores a
    total power of zero; the forecast on it still completes, every monthly
    energy, power and household figure is zero, the total is zero, and the
    comparison with the (zero) baseline takes the guarded branch: the
    difference is 0 and nothing is divided by zero. *)
Theorem no_source_forecast_is_zero (M : lstm) (R : numpy_random) (r0 : rng_state R)
    (waterfall_height waterfall_flow geo_temp depth
     turbine_efficiency geo_efficiency capacity_factor : Q)
    (forecast_months : Z) (start_month climate_scenario : string) :
  waterfall_height <= 0 ∨ waterfall_flow <= 0 →
  geo_temp <= 50 ∨ depth <= 0 →
  is_Some (month_map !! start_month) →
  is_Some (climate_adjustments !! climate_scenario) →
  let geo := calculate_energy_potential waterfall_height waterfall_flow geo_temp depth
               turbine_efficiency geo_efficiency capacity_factor in
  ∃ p r,
    forecast_from_geo_data M R r0 geo forecast_months start_month climate_scenario
    = Some (p, r)
    ∧ Forall (λ e, e == 0) (total_mwh p)
    ∧ Forall (λ e, e == 0) (total_mw p)
    ∧ Forall (λ n, n = 0%Z) (monthly_households p)
    ∧ total_annual_mwh p == 0
    ∧ difference_pct (total_annual_mwh p) (E_total_year_MWh geo) = 0.
Proof.
  intros Hw Hg [s Hs] [[temp_mult rain_mult] Hc] geo. subst geo.
  unfold forecast_from_geo_data.
  rewrite calculate_energy_potential_fields.
  cbn [P_total_MW P_waterfall_MW P_geo_MW E_total_year_MWh].
  destruct (waterfall_cases waterfall_height waterfall_flow turbine_efficiency)
    as [(Hh & Hq & _) | (_ & ->)]; [destruct Hw; lra|].
  destruct (geothermal_cases geo_temp depth geo_efficiency capacity_factor)
    as [(HT & Hd & _) | (_ & ->)]; [destruct Hg; lra|].
  cbn [fst snd].
  destruct (generate_lstm_forecast_closed M R r0 (0 + 0) 0 0
              forecast_months start_month climate_scenario s temp_mult rain_mult Hs Hc)
    as [r Hgen].
  eexists _, r. split; [exact Hgen|].
  unfold monthly_households, store_predictions.
  cbn [total_mwh total_mw total_annual_mwh predictions_mwh state_at].
  assert (Forall (λ e, e == 0)
            (scaled_prediction_at M (0 + 0) (seed_window s)
               (forward_sequence R s temp_mult rain_mult forecast_months)
             <$> seq 0 (Z.to_nat forecast_months))) as Hzero.
  { apply Forall_fmap, Forall_forall. intros k _. simpl.
    unfold scaled_prediction_at. rewrite scale_factor_zero by reflexivity. ring. }
  split; [exact Hzero|].
  split.
  { apply Forall_fmap. eapply Forall_impl; [exact Hzero|].
    intros e He. simpl. rewrite He. reflexivity. }
  split.
  { apply Forall_fmap. eapply Forall_impl; [exact Hzero|].
    intros e He. simpl. rewrite (int_comp _ 0); [reflexivity|].
    rewrite He. reflexivity. }
  split; [by apply py_sum_zero|].
  reflexivity.
Qed.

Lemma no_source_forecast_is_zero_witness :
  ((0 <= 0 ∨ 10 <= 0) ∧ (40 <= 50 ∨ 3 <= 0)
   ∧ is_Some (month_map !! "June"%string)
   ∧ is_Some (climate_adjustments !! "Normal"%string))
  ∧ ∃ p r,
      forecast_from_geo_data Demo.demo_lstm Demo.demo_random 7%Z
        (calculate_energy_potential 0 10 40 3 0.9 0.15 0.85) 3 "June" "Normal"
      = Some (p, r)
      ∧ total_annual_mwh p == 0.
Proof.
  assert (0 <= 0 ∨ 10 <= 0) as H1 by (left; by vm_compute).
  assert (40 <= 50 ∨ 3 <= 0) as H2 by (left; by vm_compute).
  assert (is_Some (month_map !! "June"%string)) as H3 by (by eexists).
  assert (is_Some (climate_adjustments !! "Normal"%string)) as H4 by (by eexists).
  split; [by repeat split|].
  destruct (no_source_forecast_is_zero Demo.demo_lstm Demo.demo_random 7%Z
              0 10 40 3 0.9 0.15 0.85 3 "June" "Normal" H1 H2 H3 H4)
    as (p & r & Hgen & _ & _ & _ & Hsum & _).
  exists p, r. split; [exact Hgen | exact Hsum].
Defined.

End ForecastExtras.

(** ** The calculator's form values across reruns *)

Section FormStateExtras.

Import FormState.
Local Open Scope Q_scope.

Implicit Types (session_state pdf_extracted geo_data : gmap string Q).

Lemma lookup_set_if_missing (key : string) (value : Q) session_state (j : string) :
  set_if_missing key value session_state !! j
  = if decide (key = j) then Some (get session_state key value)
    else session_state !! j.
Proof.
  unfold set_if_missing, get.
  destruct (session_state !! key) eqn:E; case_decide; by simplify_map_eq.
Qed.

Lemma set_if_missing_present (key : string) (value : Q) session_state :
  is_Some (session_state !! key) → set_if_missing key value session_state = session_state.
Proof. intros [v Hv]. unfold set_if_missing. by rewrite Hv. Qed.

Ltac form_key := unfold form_keys; repeat constructor.

Lemma with_defaults_present (init : initial) session_state :
  (∀ key, key ∈ form_keys → is_Some (session_state !! key)) →
  with_defaults init session_state = session_state.
Proof.
  intros Hkeys. unfold with_defaults.
  rewrite (set_if_missing_present "form_latitude") by (apply Hkeys; form_key).
  rewrite (set_if_missing_present "form_longitude") by (apply Hkeys; form_key).
  rewrite (set_if_missing_present "form_waterfall_height") by (apply Hkeys; form_key).
  rewrite (set_if_missing_present "form_waterfall_flow") by (apply Hkeys; form_key).
  rewrite (set_if_missing_present "form_geo_temp") by (apply Hkeys; form_key).
  by rewrite (set_if_missing_present "form_depth") by (apply Hkeys; form_key).
Qed.

Lemma with_defaults_keys (init : initial) session_state (key : string) :
  key ∈ form_keys → is_Some (with_defaults init session_state !! key).
Proof.
  intros Hkey. unfold with_defaults.
  repeat (rewrite lookup_set_if_missing; case_decide; [by eexists|]).
  unfold form_keys in Hkey. rewrite !elem_of_cons, elem_of_nil in Hkey.
  intuition congruence.
Qed.

Lemma with_defaults_other (init : initial) session_state (key : string) :
  key ∉ form_keys → with_defaults init session_state !! key = session_state !! key.
Proof.
  intros Hkey. unfold with_defaults.
  repeat (rewrite lookup_set_if_missing; case_decide;
          [exfalso; apply Hkey; subst; form_key|]).
  done.
Qed.

Lemma form_setup_unfold (input_method : string) pdf_extracted geo_data session_state :
  form_setup input_method pdf_extracted geo_data session_state
  = let init := initial_values input_method pdf_extracted geo_data in
    let ss := with_defaults init session_state in
    ss ←
      (if bool_decide (input_method = "Click on Map"%string)
          && bool_decide (is_Some (geo_data !! "clicked_lat"%string))
       then
         lat ← geo_data !! "clicked_lat"%string;
         lng ← geo_data !! "clicked_lng"%string;
         Some (<["form_longitude"%string := lng]>
                 (<["form_latitude"%string := lat]> ss))
       else Some ss);
    Some
      (if bool_decide (input_method = "Use PDF Data"%string)
          && bool_decide (pdf_extracted ≠ ∅)
       then
         <["form_depth"%string := initial_depth init]>
           (<["form_geo_temp"%string := initial_geo_temp init]>
              (<["form_waterfall_flow"%string := initial_waterfall_flow init]>
                 (<["form_waterfall_height"%string := initial_waterfall_height init]>
                    (<["form_longitude"%string := initial_longitude init]>
                       (<["form_latitude"%string := initial_latitude init]> ss)))))
       else ss).
Proof. reflexivity. Qed.

(** The setup, case by case. *)
Lemma form_setup_cases (input_method : string) pdf_extracted geo_data session_state :
  let init := initial_values input_method pdf_extracted geo_data in
  let ss := with_defaults init session_state in
  (input_method = "Click on Map"%string
   ∧ (∃ lat, geo_data !! "clicked_lat"%string = Some lat
        ∧ match geo_data !! "clicked_lng"%string with
          | Some lng =>
              form_setup input_method pdf_extracted geo_data session_state
              = Some (<["form_longitude"%string := lng]>
                        (<["form_latitude"%string := lat]> ss))
          | None =>
              form_setup input_method pdf_extracted geo_data session_state = None
          end))
  ∨ (input_method = "Use PDF Data"%string ∧ pdf_extracted ≠ ∅
     ∧ form_setup input_method pdf_extracted geo_data session_state
       = Some (<["form_depth"%string := initial_depth init]>
                 (<["form_geo_temp"%string := initial_geo_temp init]>
                    (<["form_waterfall_flow"%string := initial_waterfall_flow init]>
                       (<["form_waterfall_height"%string := initial_waterfall_height init]>
                          (<["form_longitude"%string := initial_longitude init]>
                             (<["form_latitude"%string := initial_latitude init]> ss)))))))
  ∨ ((input_method ≠ "Click on Map"%string ∨ geo_data !! "clicked_lat"%string = None)
     ∧ (input_method ≠ "Use PDF Data"%string ∨ pdf_extracted = ∅)
     ∧ form_setup input_method pdf_extracted geo_data session_state = Some ss).
Proof.
  intros init ss. rewrite form_setup_unfold. fold init. fold ss. cbv zeta.
  destruct (decide (input_method = "Click on Map"%string)) as [-> | Hm].
  - rewrite (bool_decide_eq_true_2 ("Click on Map"%string = "Click on Map"%string))
      by done.
    rewrite (bool_decide_eq_false_2 ("Click on Map"%string = "Use PDF Data"%string))
      by done.
    cbn [andb].
    destruct (geo_data !! "clicked_lat"%string) as [lat|] eqn:Hlat.
    + left. split; [done|]. exists lat. split; [done|].
      rewrite (bool_decide_eq_true_2 (is_Some (Some lat))) by eauto.
      by destruct (geo_data !! "clicked_lng"%string).
    + right. right.
      rewrite (bool_decide_eq_false_2 (is_Some (@None Q))) by (intros [? [=]]).
      split; [by right|]. split; [by left | done].
  - rewrite (bool_decide_eq_false_2 (input_method = "Click on Map"%string)) by done.
    cbn [andb mbind option_bind].
    destruct (decide (input_method = "Use PDF Data"%string)) as [-> | Hp].
    + rewrite (bool_decide_eq_true_2 ("Use PDF Data"%string = "Use PDF Data"%string))
        by done.
      cbn [andb].
      destruct (decide (pdf_extracted = ∅)) as [Hempty | Hne].
      * right. right.
        rewrite (bool_decide_eq_false_2 (pdf_extracted ≠ ∅)) by (intros H; by apply H).
        split; [by left|]. split; [by right | done].
      * right. left. rewrite (bool_decide_eq_true_2 (pdf_extracted ≠ ∅)) by done. done.
    + right. right.
      rewrite (bool_decide_eq_false_2 (input_method = "Use PDF Data"%string)) by done.
      split; [by left|]. split; [by left | done].
Qed.

(** Reruns.  When the setup completes, the six form keys are present, no
    other key of the session state changes, and running the setup again
    on the result (as every Streamlit rerun does) changes nothing. *)
Theorem form_setup_rerun (input_method : string)
    pdf_extracted geo_data session_state (ss' : gmap string Q) :
  form_setup input_method pdf_extracted geo_data session_state = Some ss' →
  (∀ key, key ∈ form_keys → is_Some (ss' !! key))
  ∧ (∀ key, key ∉ form_keys → ss' !! key = session_state !! key)
  ∧ form_setup input_method pdf_extracted geo_data ss' = Some ss'.
Proof.
  intros Hrun.
  assert ((∀ key, key ∈ form_keys → is_Some (ss' !! key))
          ∧ (∀ key, key ∉ form_keys → ss' !! key = session_state !! key))
    as [Hkeys Hother].
  { destruct (form_setup_cases input_method pdf_extracted geo_data session_state)
      as [(-> & lat & Hlat & Hlng) | [(-> & Hne & Heq) | (_ & _ & Heq)]].
    - destruct (geo_data !! "clicked_lng"%string) as [lng|]; [|congruence].
      rewrite Hlng in Hrun. injection Hrun as <-. split.
      + intros key Hkey. rewrite !lookup_insert.
        repeat (case_decide; [by eexists|]). by apply with_defaults_keys.
      + intros key Hkey. rewrite !lookup_insert.
        repeat (case_decide; [exfalso; apply Hkey; subst; form_key|]).
        by apply with_defaults_other.
    - rewrite Heq in Hrun. injection Hrun as <-. split.
      + intros key Hkey. rewrite !lookup_insert.
        repeat (case_decide; [by eexists|]). by apply with_defaults_keys.
      + intros key Hkey. rewrite !lookup_insert.
        repeat (case_decide; [exfalso; apply Hkey; subst; form_key|]).
        by apply with_defaults_other.
    - rewrite Heq in Hrun. injection Hrun as <-. split.
      + intros key Hkey. by apply with_defaults_keys.
      + intros key Hkey. by apply with_defaults_other. }
  split; [done|]. split; [done|].
  destruct (form_setup_cases input_method pdf_extracted geo_data session_state)
    as [(-> & lat & Hlat & Hlng) | [(-> & Hne & Heq) | (Hc & Hp & Heq)]].
  - destruct (geo_data !! "clicked_lng"%string) as [lng|] eqn:Hlng'; [|congruence].
    rewrite Hlng in Hrun. injection Hrun as <-.
    destruct (form_setup_cases "Click on Map" pdf_extracted geo_data
                (<["form_longitude"%string := lng]>
                   (<["form_latitude"%string := lat]>
                      (with_defaults
                         (initial_values "Click on Map" pdf_extracted geo_data)
                         session_state))))
      as [(_ & lat' & Hlat' & Hlng2) | [([=] & _) | ([? | ?] & _)]];
      [|congruence..].
    rewrite Hlng' in Hlng2. rewrite Hlng2. f_equal.
    rewrite with_defaults_present by done.
    rewrite Hlat in Hlat'. injection Hlat' as <-.
    apply map_eq. intros key. rewrite !lookup_insert.
    by repeat case_decide.
  - rewrite Heq in Hrun. injection Hrun as <-.
    match goal with
    | |- form_setup _ _ _ ?m = _ =>
        destruct (form_setup_cases "Use PDF Data" pdf_extracted geo_data m)
          as [([=] & _) | [(_ & _ & Heq2) | (_ & [? | ?] & _)]]; [|congruence..]
    end.
    rewrite Heq2. f_equal. rewrite with_defaults_present by done.
    apply map_eq. intros key. rewrite !lookup_insert.
    by repeat case_decide.
  - rewrite Heq in Hrun. injection Hrun as <-.
    match goal with
    | |- form_setup _ _ _ ?m = _ =>
        destruct (form_setup_cases input_method pdf_extracted geo_data m)
          as [(-> & lat & Hlat & _) | [(-> & Hne & _) | (_ & _ & Heq2)]]
    end.
    + destruct Hc; congruence.
    + destruct Hp; congruence.
    + rewrite Heq2. f_equal. by apply with_defaults_present.
Qed.

Lemma form_setup_rerun_witness :
  form_setup "Manual Entry" ∅ ∅ ∅
  = Some (with_defaults (initial_values "Manual Entry" ∅ ∅) ∅)
  ∧ form_setup "Manual Entry" ∅ ∅ (with_defaults (initial_values "Manual Entry" ∅ ∅) ∅)
    = Some (with_defaults (initial_values "Manual Entry" ∅ ∅) ∅).
Proof.
  assert (form_setup "Manual Entry" ∅ ∅ ∅
          = Some (with_defaults (initial_values "Manual Entry" ∅ ∅) ∅)) as H
    by reflexivity.
  split; [exact H|].
  exact (proj2 (proj2 (form_setup_rerun "Manual Entry" ∅ ∅ ∅ _ H))).
Defined.

(** Form values.  Values already in the form survive the setup unless the
    PDF data or a map click replaces them; with "Use PDF Data" and
    extracted data, all six form values become the extracted ones
    (defaults for missing entries), whatever was in the form; and the setup
    raises exactly when the method is "Click on Map" and the click left a
    latitude without a longitude. *)
Theorem form_setup_values (input_method : string)
    pdf_extracted geo_data session_state :
  ((input_method ≠ "Use PDF Data"%string ∨ pdf_extracted = ∅) →
   (input_method ≠ "Click on Map"%string ∨ geo_data !! "clicked_lat"%string = None) →
   (∀ key, key ∈ form_keys → is_Some (session_state !! key)) →
   form_setup input_method pdf_extracted geo_data session_state = Some session_state)
  ∧ (input_method = "Use PDF Data"%string → pdf_extracted ≠ ∅ →
     ∃ ss',
       form_setup input_method pdf_extracted geo_data session_state = Some ss'
       ∧ ss' !! "form_latitude"%string = Some (get pdf_extracted "latitude" 23.8103)
       ∧ ss' !! "form_longitude"%string = Some (get pdf_extracted "longitude" 90.4125)
       ∧ ss' !! "form_waterfall_height"%string
         = Some (get pdf_extracted "waterfall_height" 0.0)
       ∧ ss' !! "form_waterfall_flow"%string
         = Some (get pdf_extracted "waterfall_flow" 0.0)
       ∧ ss' !! "form_geo_temp"%string = Some (get pdf_extracted "geo_temp" 0.0)
       ∧ ss' !! "form_depth"%string = Some (get pdf_extracted "depth" 3.0))
  ∧ (form_setup input_method pdf_extracted geo_data session_state = None
     ↔ input_method = "Click on Map"%string
       ∧ is_Some (geo_data !! "clicked_lat"%string)
       ∧ geo_data !! "clicked_lng"%string = None).
Proof.
  destruct (form_setup_cases input_method pdf_extracted geo_data session_state)
    as [(-> & lat & Hlat & Hlng) | [(-> & Hne & Heq) | (Hc & Hp & Heq)]].
  - split; [|split].
    + intros _ [? | ?]; congruence.
    + intros [=].
    + destruct (geo_data !! "clicked_lng"%string) as [lng|].
      * rewrite Hlng. split; [done | intros (_ & _ & [=])].
      * rewrite Hlng. split; [|done]. intros _. rewrite Hlat. eauto.
  - split; [|split].
    + intros [? | ?]; congruence.
    + intros _ _. eexists. split; [exact Heq|].
      unfold initial_values.
      rewrite (bool_decide_eq_true_2 ("Use PDF Data"%string = "Use PDF Data"%string))
        by done.
      rewrite (bool_decide_eq_true_2 (pdf_extracted ≠ ∅)) by done.
      cbn [andb initial_latitude initial_longitude initial_waterfall_height
           initial_waterfall_flow initial_geo_temp initial_depth].
      repeat split; rewrite !lookup_insert; by repeat case_decide.
    + rewrite Heq. split; [done | intros ([=] & _)].
  - split; [|split].
    + intros _ _ Hkeys. rewrite Heq. f_equal. by apply with_defaults_present.
    + intros -> Hne. destruct Hp; congruence.
    + rewrite Heq. split; [done|]. intros (-> & [v Hv] & _).
      destruct Hc; congruence.
Qed.

Lemma form_setup_values_witness :
  ∃ ss',
    form_setup "Use PDF Data" {["geo_temp"%string := 180]} ∅ ∅ = Some ss'
    ∧ ss' !! "form_geo_temp"%string = Some (get {["geo_temp"%string := 180]} "geo_temp" 0.0).
Proof.
  destruct (form_setup_values "Use PDF Data" {["geo_temp"%string := 180]} ∅ ∅)
    as (_ & Hpdf & _).
  destruct Hpdf as (ss' & Hrun & _ & _ & _ & _ & Htemp & _);
    [reflexivity | apply map_non_empty_singleton |].
  exists ss'. split; [exact Hrun | exact Htemp].
Defined.

End FormStateExtras.
